(** * api/airgo/airgo.go: the AirGo panel client of XrayR

    A shallow embedding of the conditional-fetch cache ([updateETag],
    [GetNodeInfo], [GetUserList]), of the configuration translator
    ([calculateSpeedLimit], [ParseAirGoNodeInfo], the user loop of
    [GetUserList]) and of the grouping done by [ReportNodeOnlineUsers],
    followed by the properties of these functions. *)

From Stdlib Require Import ZArith String Ascii List Bool Lia.
From Stdlib Require Import Floats.SpecFloat.
From stdpp Require Import base gmap strings list fin_maps.

Local Open Scope string_scope.
Local Open Scope list_scope.
Local Open Scope Z_scope.

(** ** Machine integers

    Go's sized integers are kept as [Z]; a conversion to a [w]-bit type
    writes its wrap-around out. [int] is 64 bits wide. *)

Module GoInt.

Definition wrap_unsigned (w : Z) (z : Z) : Z := z mod 2 ^ w.

Definition wrap_signed (w : Z) (z : Z) : Z :=
  let r := z mod 2 ^ w in
  if r <? 2 ^ (w - 1) then r else r - 2 ^ w.

Definition uint32 (z : Z) : Z := wrap_unsigned 32 z.
Definition int (z : Z) : Z := wrap_signed 64 z.

Definition is_int64 (z : Z) : Prop := - 2 ^ 63 <= z < 2 ^ 63.

End GoInt.

(** ** float64

    IEEE 754 binary64 through the Standard Library's executable
    specification (53 bits of precision, infinities at exponent 1024,
    round to nearest even). *)

Module Float64.

Definition float64 : Type := spec_float.

Definition prec : Z := 53.
Definition emax : Z := 1024.

Definition mul (x y : float64) : float64 := SFmul prec emax x y.
Definition div (x y : float64) : float64 := SFdiv prec emax x y.

(** [float64(z)] for an integer [z], and the value of an integer constant
    used where a float64 is expected. *)
Definition of_Z (z : Z) : float64 := binary_normalize prec emax z 0 false.

(** [x > 0] *)
Definition gt0 (x : float64) : bool := SFltb (S754_zero false) x.

(** The integer part of a finite value, fraction discarded. *)
Definition trunc (s : bool) (m : positive) (e : Z) : Z :=
  let a := match e with
           | Z0 => Zpos m
           | Zpos p => Zpos m * 2 ^ Zpos p
           | Zneg p => Zpos m / 2 ^ Zpos p
           end in
  if s then - a else a.

(** [uint64(x)]: the fraction is discarded; where the truncated value is
    not a uint64 (and for infinities and NaN) Go leaves the result to the
    implementation, here [unrepresentable x]. *)
Definition to_uint64 (unrepresentable : float64 -> Z) (x : float64) : Z :=
  match x with
  | S754_zero _ => 0
  | S754_finite s m e =>
      let v := trunc s m e in
      if (0 <=? v) && (v <? 2 ^ 64) then v else unrepresentable x
  | S754_infinity _ | S754_nan => unrepresentable x
  end.

(** A finite non-zero value or an infinity of sign [s]. *)
Definition signed (s : bool) (x : float64) : Prop :=
  match x with
  | S754_finite s' _ _ | S754_infinity s' => s' = s
  | _ => False
  end.

(** The float64 of a positive integer of at most 53 bits: the integer
    itself, normalized to a 53-bit mantissa. *)
Definition whole (p : positive) : float64 :=
  let d := Zpos (digits2_pos p) in
  S754_finite false (Z.to_pos (Zpos p * 2 ^ (53 - d))) (d - 53).

End Float64.

Export Float64(float64).

(** ** Errors

    What the client returns as [error]; [None] is Go's [nil]. *)

Inductive error : Type :=
  | NodeNotModified                     (* errors.New(api.NodeNotModified) *)
  | UserNotModified                     (* errors.New(api.UserNotModified) *)
  | UnmarshalNodeInfoFailed (e : string)
  | ParseNodeInfoFailed (body : string) (e : error)
  | GetUserListFailed (e : string)
  | UnmarshalUserListFailed (e : string)
  | SendRequestFailed (url : string) (e : string)
  | RequestStatusFailed (url : string) (status : Z)
  | UnsupportedType.                    (* json: unsupported type *)

(** ** encoding/json on the values this client builds

    [any] holds what the camouflage header is made of: strings, slices of
    strings and [map[string]any]; [AOpaque] stands for a value the encoder
    has no encoding for. *)

Inductive any : Type :=
  | AString (s : string)
  | AStrings (l : list string)
  | AMap (m : list (string * any))
  | AOpaque.

Module Json.

Fixpoint join (sep : string) (l : list string) : string :=
  match l with
  | [] => ""
  | [x] => x
  | x :: r => x +:+ sep +:+ join sep r
  end.

(** Map keys are written in increasing byte order. *)
Fixpoint insert_field (f : string * string) (l : list (string * string))
  : list (string * string) :=
  match l with
  | [] => [f]
  | g :: r => if String.leb (fst f) (fst g) then f :: g :: r
              else g :: insert_field f r
  end.

Definition sort_fields (l : list (string * string)) : list (string * string) :=
  foldr insert_field [] l.

Section Encode.

(** The encoder's quoting of a string (its escapes differ between Go
    releases); it has no failure case. *)
Variable quote : string -> string.

Fixpoint encode (v : any) : option string :=
  match v with
  | AString s => Some (quote s)
  | AStrings l => Some ("[" +:+ join "," (map quote l) +:+ "]")
  | AMap m =>
      let fields :=
        (fix go (m : list (string * any)) : option (list (string * string)) :=
           match m with
           | [] => Some []
           | (k, x) :: r =>
               match encode x, go r with
               | Some e, Some fs => Some ((k, e) :: fs)
               | _, _ => None
               end
           end) m in
      match fields with
      | Some fs =>
          Some ("{" +:+ join "," (map (fun f => quote (fst f) +:+ ":" +:+ snd f)
                                     (sort_fields fs)) +:+ "}")
      | None => None
      end
  | AOpaque => None
  end.

(** [json.Marshal]: the bytes, or nil bytes and an error. *)
Definition Marshal (v : any) : option string * option error :=
  match encode v with
  | Some b => (Some b, None)
  | None => (None, Some UnsupportedType)
  end.

End Encode.

End Json.

(** ** Records

    The [api] package and the panel's response types are declared outside
    the translated file; each record below keeps the fields that file
    reads or writes, under the names it uses. A field of [api.NodeInfo]
    that no branch assigns keeps its zero value and is left out. *)

(** Modelled from the spec: [api.REALITYConfig], the REALITY parameters,
    with the fields of the struct literal in [ParseAirGoNodeInfo]. *)
Record REALITYConfig : Type := {
  Dest : string;
  ProxyProtocolVer : Z;
  ServerNames : list string;
  PrivateKey : string;
  MinClientVer : string;
  MaxClientVer : string;
  MaxTimeDiff : Z;
  ShortIds : list string
}.

(** Modelled from the spec: [api.NodeInfo], the normalized node
    configuration, with the fields of the struct literals in
    [ParseAirGoNodeInfo]; [REALITYConfig] is a pointer and [Header] a
    [json.RawMessage], both nil as [None]; the port is a uint32, the
    speed limit a uint64. *)
Record NodeInfo : Type := {
  NodeType : string;
  NodeID : Z;
  Port : Z;
  SpeedLimit : Z;
  AlterID : Z;
  TransportProtocol : string;
  Host : string;
  Path : string;
  EnableTLS : bool;
  EnableVless : bool;
  VlessFlow : string;
  CypherMethod : string;
  ServerKey : string;
  ServiceName : string;
  Header : option string;
  EnableREALITY : bool;
  REALITYConfig_ : option REALITYConfig
}.

(** Modelled from the spec: the panel node descriptor [NodeInfoResponse],
    whose declaration is not part of the translated file. The fields are
    those [ParseAirGoNodeInfo] reads; the speed limit is a float64 (the
    spec's "mbps, float") and the port a 64-bit integer. *)
Record NodeInfoResponse : Type := {
  nProtocol : string;
  nNetwork : string;
  nSecurity : string;
  nPort : Z;
  nNodeSpeedLimit : float64;
  nVlessFlow : string;
  nPath : string;
  nHost : string;
  nServiceName : string;
  nType : string;
  nScy : string;
  nServerKey : string;
  nDest : string;
  nSni : string;
  nPrivateKey : string
}.

(** Modelled from the spec: the panel user descriptor [UserResponse],
    whose declaration is not part of the translated file; the speed limit
    is the int64 that [calculateSpeedLimit] takes, the id and the
    connection limit are 64-bit integers. *)
Record UserResponse : Type := {
  uID : Z;
  uUUID : string;
  uUserName : string;
  uPasswd : string;
  uNodeSpeedLimit : Z;
  uNodeConnector : Z
}.

(** Modelled from the spec: [api.UserInfo], the normalized user record,
    with the fields of the struct literal in [GetUserList]. *)
Record UserInfo : Type := {
  UID : Z;
  UUID : string;
  Email : string;
  Passwd : string;
  uSpeedLimit : Z;
  DeviceLimit : Z
}.

(** Modelled from the spec: [api.OnlineUser], one observation (user id,
    IP). *)
Record OnlineUser : Type := {
  oUID : Z;
  oIP : string
}.

(** Modelled from the spec: [OnlineUser], the request body built by
    [ReportNodeOnlineUsers], a node id and a table from user id to IPs. *)
Record OnlineUserRequest : Type := {
  rNodeID : Z;
  rUserNodeMap : gmap Z (list string)
}.

(** [APIClient], without the HTTP client and the local rule list. *)
Record APIClient : Type := {
  cAPIHost : string;
  cNodeID : Z;
  cKey : string;
  cNodeType : string;
  cEnableVless : bool;
  cVlessFlow : string;
  cSpeedLimit : float64;
  cDeviceLimit : Z;
  eTags : gmap string string
}.

Definition set_eTags (c : APIClient) (t : gmap string string) : APIClient :=
  {| cAPIHost := cAPIHost c; cNodeID := cNodeID c; cKey := cKey c;
     cNodeType := cNodeType c; cEnableVless := cEnableVless c;
     cVlessFlow := cVlessFlow c; cSpeedLimit := cSpeedLimit c;
     cDeviceLimit := cDeviceLimit c; eTags := t |}.

(** Zero values. *)
Definition zero_REALITYConfig : REALITYConfig :=
  {| Dest := ""; ProxyProtocolVer := 0; ServerNames := []; PrivateKey := "";
     MinClientVer := ""; MaxClientVer := ""; MaxTimeDiff := 0; ShortIds := [] |}.

Definition zero_NodeInfo : NodeInfo :=
  {| NodeType := ""; NodeID := 0; Port := 0; SpeedLimit := 0; AlterID := 0;
     TransportProtocol := ""; Host := ""; Path := ""; EnableTLS := false;
     EnableVless := false; VlessFlow := ""; CypherMethod := "";
     ServerKey := ""; ServiceName := ""; Header := None;
     EnableREALITY := false; REALITYConfig_ := None |}.

Definition zero_UserInfo : UserInfo :=
  {| UID := 0; UUID := ""; Email := ""; Passwd := ""; uSpeedLimit := 0;
     DeviceLimit := 0 |}.

Definition set_Header (h : option string) (i : NodeInfo) : NodeInfo :=
  {| NodeType := NodeType i; NodeID := NodeID i; Port := Port i;
     SpeedLimit := SpeedLimit i; AlterID := AlterID i;
     TransportProtocol := TransportProtocol i; Host := Host i;
     Path := Path i; EnableTLS := EnableTLS i; EnableVless := EnableVless i;
     VlessFlow := VlessFlow i; CypherMethod := CypherMethod i;
     ServerKey := ServerKey i; ServiceName := ServiceName i; Header := h;
     EnableREALITY := EnableREALITY i; REALITYConfig_ := REALITYConfig_ i |}.

(** ** The HTTP exchange

    One GET as the client sees it: the request it sends and what resty
    hands back. *)

Record Request : Type := {
  qPath : string;
  qID : Z;
  qIfNoneMatch : string
}.

Record Response : Type := {
  StatusCode : Z;
  Etag : string;              (* res.Header().Get("Etag") *)
  Body : string;
  TransportErr : option string
}.

(** ** What the client takes from outside

    The float-to-integer conversion where Go leaves it to the
    implementation, the string quoting of encoding/json, and
    json.Unmarshal on the two response bodies. *)

Class Externals : Type := {
  uint64_unrepresentable : float64 -> Z;
  quote : string -> string;
  Unmarshal_NodeInfoResponse : string -> string + NodeInfoResponse;
  Unmarshal_UserResponses : string -> string + list UserResponse
}.

Section Client.

Context `{Externals}.

(** ** Conditional-fetch cache *)

(** [c.eTags[key]]: the empty string for a key never stored. *)
Definition eTag (c : APIClient) (key : string) : string :=
  default "" (eTags c !! key).

Definition updateETag (c : APIClient) (res : Response) (key : string)
  : APIClient :=
  let etag := Etag res in
  if negb (String.eqb etag "") && negb (String.eqb etag (eTag c key))
  then set_eTags c (<[key := etag]> (eTags c))
  else c.

(** ** Speed limit *)

Definition to_uint64 (x : float64) : Z :=
  Float64.to_uint64 uint64_unrepresentable x.

Definition calculateSpeedLimit (nodeSpeedLimit : Z)
  (defaultSpeedLimit : float64) : Z :=
  if 0 <? nodeSpeedLimit
  then to_uint64 (Float64.div
         (Float64.mul (Float64.of_Z nodeSpeedLimit) (Float64.of_Z 1000000))
         (Float64.of_Z 8))
  else to_uint64 (Float64.div
         (Float64.mul defaultSpeedLimit (Float64.of_Z 1000000))
         (Float64.of_Z 8)).

(** ** Node mapping *)

(** The map literal assigned to [h] in the three protocol branches. *)
Definition camouflage (n : NodeInfoResponse) : any :=
  AMap [ ("type", AString "http");
         ("request",
          AMap [ ("path", AStrings [nPath n]);
                 ("headers", AMap [ ("Host", AStrings [nHost n]) ]) ]) ].

Definition ParseAirGoNodeInfo (c : APIClient) (n : NodeInfoResponse)
  : NodeInfo * option error :=
  let nodeInfo := zero_NodeInfo in
  let enableTLS := true in
  let enableREALITY := false in
  let realityConfig := Some zero_REALITYConfig in
  let speedLimit :=
    if Float64.gt0 (nNodeSpeedLimit n)
    then to_uint64 (Float64.div
           (Float64.mul (nNodeSpeedLimit n) (Float64.of_Z 1000000))
           (Float64.of_Z 8))
    else to_uint64 (Float64.div
           (Float64.mul (cSpeedLimit c) (Float64.of_Z 1000000))
           (Float64.of_Z 8)) in
  let enableTLS :=
    if String.eqb (nSecurity n) "none" || String.eqb (nSecurity n) ""
    then false else enableTLS in
  let '(enableREALITY, realityConfig) :=
    if String.eqb (nSecurity n) "reality"
    then (true,
          Some {| Dest := nDest n;
                  ProxyProtocolVer := 0;
                  ServerNames := [nSni n];
                  PrivateKey := nPrivateKey n;
                  MinClientVer := "";
                  MaxClientVer := "";
                  MaxTimeDiff := 0;
                  ShortIds := [""; "0123456789abcdef"] |})
    else (enableREALITY, realityConfig) in
  let nodeInfo :=
    if String.eqb (nProtocol n) "vless" || String.eqb (nProtocol n) "Vless"
    then
      let nodeInfo :=
        {| EnableVless := true;
           VlessFlow := nVlessFlow n;
           NodeType := cNodeType c;
           NodeID := cNodeID c;
           Port := GoInt.uint32 (nPort n);
           SpeedLimit := speedLimit;
           TransportProtocol := nNetwork n;
           EnableTLS := enableTLS;
           Path := nPath n;
           Host := nHost n;
           ServiceName := nServiceName n;
           EnableREALITY := enableREALITY;
           REALITYConfig_ := realityConfig;
           AlterID := 0; CypherMethod := ""; ServerKey := "";
           Header := None |} in
      if String.eqb (nNetwork n) "grpc" then nodeInfo
      else if String.eqb (nNetwork n) "ws" then nodeInfo
      else if String.eqb (nNetwork n) "tcp" then
        if String.eqb (nType n) "http" then
          let h := camouflage n in
          let '(header, _) := Json.Marshal quote h in
          set_Header header nodeInfo
        else nodeInfo
      else nodeInfo
    else if String.eqb (nProtocol n) "vmess" || String.eqb (nProtocol n) "Vmess"
    then
      let nodeInfo :=
        {| EnableVless := false;
           NodeType := cNodeType c;
           NodeID := cNodeID c;
           Port := GoInt.uint32 (nPort n);
           SpeedLimit := speedLimit;
           AlterID := 0;
           TransportProtocol := nNetwork n;
           EnableTLS := enableTLS;
           Path := nPath n;
           Host := nHost n;
           CypherMethod := nScy n;
           ServiceName := nServiceName n;
           EnableREALITY := enableREALITY;
           VlessFlow := ""; ServerKey := ""; Header := None;
           REALITYConfig_ := None |} in
      if String.eqb (nNetwork n) "grpc" then nodeInfo
      else if String.eqb (nNetwork n) "ws" then nodeInfo
      else if String.eqb (nNetwork n) "tcp" then
        if String.eqb (nType n) "http" then
          let h := camouflage n in
          let '(header, _) := Json.Marshal quote h in
          set_Header header nodeInfo
        else nodeInfo
      else nodeInfo
    else if String.eqb (nProtocol n) "Shadowsocks"
            || String.eqb (nProtocol n) "shadowsocks"
    then
      let nodeInfo :=
        {| NodeType := cNodeType c;
           NodeID := cNodeID c;
           Port := GoInt.uint32 (nPort n);
           SpeedLimit := speedLimit;
           TransportProtocol := "tcp";
           CypherMethod := nScy n;
           ServerKey := nServerKey n;
           AlterID := 0; Host := ""; Path := ""; EnableTLS := false;
           EnableVless := false; VlessFlow := ""; ServiceName := "";
           Header := None; EnableREALITY := false;
           REALITYConfig_ := None |} in
      if String.eqb (nType n) "http" then
        let h := camouflage n in
        let '(header, _) := Json.Marshal quote h in
        set_Header header nodeInfo
      else nodeInfo
    else nodeInfo in
  (nodeInfo, None).

(** ** Fetching *)

Definition GetNodeInfo (c : APIClient) (send : Request -> Response)
  : (option NodeInfo * option error) * APIClient :=
  let path := "/api/public/airgo/node/getNodeInfo" in
  let res := send {| qPath := path; qID := cNodeID c;
                     qIfNoneMatch := eTag c "node" |} in
  if StatusCode res =? 304 then ((None, Some NodeNotModified), c)
  else
    let c := updateETag c res "node" in
    match Unmarshal_NodeInfoResponse (Body res) with
    | inl e => ((None, Some (UnmarshalNodeInfoFailed e)), c)
    | inr nodeInfoResponse =>
        match ParseAirGoNodeInfo c nodeInfoResponse with
        | (_, Some e) => ((None, Some (ParseNodeInfoFailed (Body res) e)), c)
        | (nodeInfo, None) => ((Some nodeInfo, None), c)
        end
    end.

(** The loop of [GetUserList]: [userInfo] is allocated with the length of
    [userResponse] and slot [i] is assigned from element [i]. *)
Definition userInfo_of (c : APIClient) (v : UserResponse) : UserInfo :=
  let speedLimit := calculateSpeedLimit (uNodeSpeedLimit v) (cSpeedLimit c) in
  {| UID := GoInt.int (uID v);
     UUID := uUUID v;
     Email := uUserName v;
     Passwd := uPasswd v;
     uSpeedLimit := speedLimit;
     DeviceLimit := GoInt.int (uNodeConnector v) |}.

Fixpoint fill_userInfo (c : APIClient) (i : nat) (rest : list UserResponse)
  (userInfo : list UserInfo) : list UserInfo :=
  match rest with
  | [] => userInfo
  | v :: rest' =>
      fill_userInfo c (S i) rest' (<[i := userInfo_of c v]> userInfo)
  end.

Definition translate_users (c : APIClient) (userResponse : list UserResponse)
  : list UserInfo :=
  let userInfo := replicate (length userResponse) zero_UserInfo in
  fill_userInfo c 0%nat userResponse userInfo.

Definition GetUserList (c : APIClient) (send : Request -> Response)
  : (option (list UserInfo) * option error) * APIClient :=
  let path := "/api/public/airgo/user/getUserlist" in
  let res := send {| qPath := path; qID := cNodeID c;
                     qIfNoneMatch := eTag c "userlist" |} in
  match TransportErr res with
  | Some e => ((None, Some (GetUserListFailed e)), c)
  | None =>
      if StatusCode res =? 304 then ((None, Some UserNotModified), c)
      else
        let c := updateETag c res "userlist" in
        match Unmarshal_UserResponses (Body res) with
        | inl e => ((None, Some (UnmarshalUserListFailed e)), c)
        | inr userResponse => ((Some (translate_users c userResponse), None), c)
        end
  end.

(** ** Reporting *)

Definition assembleURL (c : APIClient) (path : string) : string :=
  cAPIHost c +:+ path.

Definition postRequest {B : Type} (c : APIClient)
  (post : string -> B -> Response) (path : string) (body : B)
  : option error :=
  let res := post path body in
  match TransportErr res with
  | Some e => Some (SendRequestFailed (assembleURL c path) e)
  | None =>
      if negb (StatusCode res =? 200)
      then Some (RequestStatusFailed (assembleURL c path) (StatusCode res))
      else None
  end.

(** The loop of [ReportNodeOnlineUsers]:
    [m[v.UID] = append(m[v.UID], v.IP)] for each observation in turn. *)
Definition add_online (m : gmap Z (list string)) (v : OnlineUser)
  : gmap Z (list string) :=
  <[oUID v := default [] (m !! oUID v) ++ [oIP v]]> m.

Definition online_payload (c : APIClient) (onlineUserList : list OnlineUser)
  : OnlineUserRequest :=
  {| rNodeID := cNodeID c;
     rUserNodeMap := foldl add_online ∅ onlineUserList |}.

Definition ReportNodeOnlineUsers (c : APIClient)
  (post : string -> OnlineUserRequest -> Response)
  (onlineUserList : list OnlineUser) : option error :=
  let onlineUser := online_payload c onlineUserList in
  let path := "/api/public/airgo/user/AGReportNodeOnlineUsers" in
  postRequest c post path onlineUser.

End Client.

Arguments Float64.mul : simpl never.
Arguments Float64.div : simpl never.
Arguments Float64.of_Z : simpl never.
Arguments Float64.gt0 : simpl never.
Arguments Float64.to_uint64 : simpl never.
Arguments GoInt.uint32 : simpl never.
Arguments GoInt.int : simpl never.

(** ** Protocol and security classes, as the [switch] and the [if]s of
    [ParseAirGoNodeInfo] spell them *)

Definition is_vless (p : string) : bool :=
  String.eqb p "vless" || String.eqb p "Vless".

Definition is_vmess (p : string) : bool :=
  String.eqb p "vmess" || String.eqb p "Vmess".

Definition is_shadowsocks (p : string) : bool :=
  String.eqb p "Shadowsocks" || String.eqb p "shadowsocks".

Definition recognized (p : string) : bool :=
  is_vless p || is_vmess p || is_shadowsocks p.

Definition security_off (s : string) : bool :=
  String.eqb s "none" || String.eqb s "".

(** The REALITY parameters built for security mode "reality". *)
Definition reality_of (n : NodeInfoResponse) : REALITYConfig :=
  {| Dest := nDest n;
     ProxyProtocolVer := 0;
     ServerNames := [nSni n];
     PrivateKey := nPrivateKey n;
     MinClientVer := "";
     MaxClientVer := "";
     MaxTimeDiff := 0;
     ShortIds := [""; "0123456789abcdef"] |}.

(** A client of the panel whose encoder quotes a string by putting it
    between two quotation marks, and descriptors used as concrete inputs. *)
Definition dquote : string := String (ascii_of_nat 34) EmptyString.

Definition plain_externals : Externals :=
  {| uint64_unrepresentable := fun _ => 0;
     quote := fun s => dquote +:+ s +:+ dquote;
     Unmarshal_NodeInfoResponse := fun _ => inl "unexpected end of JSON input";
     Unmarshal_UserResponses := fun _ => inl "unexpected end of JSON input" |}.

Definition client0 : APIClient :=
  {| cAPIHost := "http://panel"; cNodeID := 7; cKey := "k";
     cNodeType := "V2ray"; cEnableVless := false; cVlessFlow := "";
     cSpeedLimit := Float64.of_Z 50; cDeviceLimit := 0; eTags := ∅ |}.

Definition descriptor (protocol network security type : string)
  : NodeInfoResponse :=
  {| nProtocol := protocol; nNetwork := network; nSecurity := security;
     nPort := 443; nNodeSpeedLimit := S754_zero false;
     nVlessFlow := "xtls-rprx-vision"; nPath := "/p"; nHost := "h.example";
     nServiceName := "svc"; nType := type; nScy := "auto";
     nServerKey := "sk"; nDest := "d.example:443"; nSni := "sni.example";
     nPrivateKey := "pk" |}.

(** A panel that answers 304 to every request. *)
Definition not_modified (q : Request) : Response :=
  {| StatusCode := 304; Etag := "abc"; Body := ""; TransportErr := None |}.

Definition two_users : list UserResponse :=
  [ {| uID := 11; uUUID := "u-11"; uUserName := "ann"; uPasswd := "pa";
       uNodeSpeedLimit := 100; uNodeConnector := 3 |};
    {| uID := 12; uUUID := "u-12"; uUserName := "bob"; uPasswd := "pb";
       uNodeSpeedLimit := 0; uNodeConnector := 0 |} ].

(** The JSON text of the camouflage header: keys in increasing order, no
    white space. *)
Definition camouflage_json `{Externals} (n : NodeInfoResponse) : string :=
  let host := "[" +:+ quote (nHost n) +:+ "]" in
  let path := "[" +:+ quote (nPath n) +:+ "]" in
  let headers := "{" +:+ (quote "Host" +:+ ":" +:+ host) +:+ "}" in
  let request :=
    "{" +:+ ((quote "headers" +:+ ":" +:+ headers) +:+ ","
             +:+ (quote "path" +:+ ":" +:+ path)) +:+ "}" in
  "{" +:+ ((quote "request" +:+ ":" +:+ request) +:+ ","
           +:+ (quote "type" +:+ ":" +:+ quote "http")) +:+ "}".

(** The six protocol spellings of the [switch]. *)
Definition protocol_spellings : list string :=
  ["vless"; "Vless"; "vmess"; "Vmess"; "Shadowsocks"; "shadowsocks"].

(** ** The rest of the client: construction, rule file, reports *)

(** How a call ends: it returns, the process exits ([log.Fatalf]) or the
    goroutine panics. *)
Inductive outcome (A : Type) : Type :=
  | Returned (a : A)
  | Exited (msg : string)
  | Panicked (msg : string).

Arguments Returned {A} a.
Arguments Exited {A} msg.
Arguments Panicked {A} msg.

(** A compiled pattern, kept as its source text. *)
Inductive Regexp : Type :=
  | Compiled (source : string).

(** Modelled from the spec: [api.DetectRule], an identifier paired with a
    compiled pattern. *)
Record DetectRule : Type := {
  dID : Z;
  dPattern : Regexp
}.

(** What [bufio.Scanner] yields from an opened file: the lines it scanned
    and the error it stopped on, if any. *)
Record ScannedFile : Type := {
  fLines : list string;
  fErr : option string
}.

(** The operating system and the regexp package as the rule loader uses
    them: [os.Open] followed by scanning, and whether a pattern compiles. *)
Class System : Type := {
  os_Open : string -> string + ScannedFile;
  regexp_compiles : string -> bool
}.

(** [regexp.MustCompile] *)
Definition MustCompile `{System} (s : string) : outcome Regexp :=
  if regexp_compiles s then Returned (Compiled s)
  else Panicked ("regexp: Compile(" +:+ s +:+ ")").

(** The scanning loop of [readLocalRuleList]: one rule per line, appended
    in order; the first pattern that does not compile panics. *)
Fixpoint scan_rules `{System} (lines : list string)
  (LocalRuleList : list DetectRule) : outcome (list DetectRule) :=
  match lines with
  | [] => Returned LocalRuleList
  | text :: rest =>
      match MustCompile text with
      | Returned pattern =>
          scan_rules rest
            (LocalRuleList ++ [ {| dID := -1; dPattern := pattern |} ])
      | Exited msg => Exited msg
      | Panicked msg => Panicked msg
      end
  end.

Definition readLocalRuleList `{System} (path : string)
  : outcome (list DetectRule) :=
  let LocalRuleList := [] in
  if String.eqb path "" then Returned LocalRuleList
  else
    match os_Open path with
    | inl err => Returned LocalRuleList
    | inr file =>
        match scan_rules (fLines file) LocalRuleList with
        | Returned LocalRuleList =>
            match fErr file with
            | Some err => Exited ("Error while reading file: " +:+ err)
            | None => Returned LocalRuleList
            end
        | Exited msg => Exited msg
        | Panicked msg => Panicked msg
        end
    end.

(** Modelled from the spec: [api.Config], the configuration object a
    client is created from, with the fields [New] reads. *)
Record Config : Type := {
  gAPIHost : string;
  gNodeID : Z;
  gKey : string;
  gNodeType : string;
  gEnableVless : bool;
  gVlessFlow : string;
  gSpeedLimit : float64;
  gDeviceLimit : Z;
  gRuleListPath : string;
  gTimeout : Z
}.

(** [New]: the client, and beside it the [LocalRuleList] field that
    [APIClient] above leaves out. *)
Definition New `{System} (apiConfig : Config)
  : outcome (APIClient * list DetectRule) :=
  match readLocalRuleList (gRuleListPath apiConfig) with
  | Returned localRuleList =>
      Returned ({| cAPIHost := gAPIHost apiConfig;
                   cNodeID := gNodeID apiConfig;
                   cKey := gKey apiConfig;
                   cNodeType := gNodeType apiConfig;
                   cEnableVless := gEnableVless apiConfig;
                   cVlessFlow := gVlessFlow apiConfig;
                   cSpeedLimit := gSpeedLimit apiConfig;
                   cDeviceLimit := gDeviceLimit apiConfig;
                   eTags := ∅ |}, localRuleList)
  | Exited msg => Exited msg
  | Panicked msg => Panicked msg
  end.

(** Modelled from the spec: [api.NodeStatus] and the [NodeStatusRequest]
    body built from it. *)
Record NodeStatus : Type := {
  sCPU : float64;
  sMem : float64;
  sDisk : float64;
  sUptime : Z
}.

Record NodeStatusRequest : Type := {
  rsID : Z;
  rsCPU : float64;
  rsMem : float64;
  rsDisk : float64;
  rsUptime : Z
}.

(** Modelled from the spec: [api.UserTraffic] and the [UserTrafficRequest]
    body built from a list of them. *)
Record UserTraffic : Type := {
  tUID : Z;
  tEmail : string;
  tUpload : Z;
  tDownload : Z
}.

Record UserTrafficRequest : Type := {
  rtID : Z;
  rtUserTraffic : list UserTraffic
}.

Definition ReportNodeStatus (c : APIClient)
  (post : string -> NodeStatusRequest -> Response) (nodeStatus : NodeStatus)
  : option error :=
  let path := "/api/public/airgo/node/reportNodeStatus" in
  let nodeStatusRequest :=
    {| rsID := cNodeID c;
       rsCPU := sCPU nodeStatus;
       rsMem := sMem nodeStatus;
       rsDisk := sDisk nodeStatus;
       rsUptime := sUptime nodeStatus |} in
  postRequest c post path nodeStatusRequest.

Definition ReportUserTraffic (c : APIClient)
  (post : string -> UserTrafficRequest -> Response)
  (userTraffic : list UserTraffic) : option error :=
  let path := "/api/public/airgo/user/reportUserTraffic" in
  let userTrafficRequest :=
    {| rtID := cNodeID c; rtUserTraffic := userTraffic |} in
  postRequest c post path userTrafficRequest.

(** The configuration fields of a client. *)
Definition same_config (c c' : APIClient) : Prop :=
  cAPIHost c' = cAPIHost c /\ cNodeID c' = cNodeID c /\ cKey c' = cKey c /\
  cNodeType c' = cNodeType c /\ cEnableVless c' = cEnableVless c /\
  cVlessFlow c' = cVlessFlow c /\ cSpeedLimit c' = cSpeedLimit c /\
  cDeviceLimit c' = cDeviceLimit c.

(** The requests the two fetches send. *)
Definition node_request (c : APIClient) : Request :=
  {| qPath := "/api/public/airgo/node/getNodeInfo"; qID := cNodeID c;
     qIfNoneMatch := eTag c "node" |}.

Definition userlist_request (c : APIClient) : Request :=
  {| qPath := "/api/public/airgo/user/getUserlist"; qID := cNodeID c;
     qIfNoneMatch := eTag c "userlist" |}.

(** Concrete inputs for the rest of the client: a system with one rule
    file of two patterns, where every pattern but "(" compiles; the
    configuration that [client0] is made from; a second client that
    differs from [client0] outside the fields the node mapping reads;
    answers of the panel. *)
Definition plain_system : System :=
  {| os_Open := fun path =>
       if String.eqb path "rules.txt"
       then inr {| fLines := ["a.*b"; "^c$"]; fErr := None |}
       else inl "no such file";
     regexp_compiles := fun s => negb (String.eqb s "(") |}.

Definition config0 : Config :=
  {| gAPIHost := "http://panel"; gNodeID := 7; gKey := "k";
     gNodeType := "V2ray"; gEnableVless := false; gVlessFlow := "";
     gSpeedLimit := Float64.of_Z 50; gDeviceLimit := 0;
     gRuleListPath := ""; gTimeout := 30 |}.

Definition client1 : APIClient :=
  {| cAPIHost := "http://other"; cNodeID := 7; cKey := "k2";
     cNodeType := "V2ray"; cEnableVless := true;
     cVlessFlow := "xtls-rprx-direct";
     cSpeedLimit := Float64.of_Z 50; cDeviceLimit := 4;
     eTags := <["node" := "v0"]> ∅ |}.

Definition with_token (token : string) (q : Request) : Response :=
  {| StatusCode := 200; Etag := token; Body := ""; TransportErr := None |}.

Definition unreachable (q : Request) : Response :=
  {| StatusCode := 0; Etag := ""; Body := ""; TransportErr := Some "timeout" |}.

Definition no_content {B : Type} (path : string) (body : B) : Response :=
  {| StatusCode := 204; Etag := ""; Body := ""; TransportErr := None |}.

(** ** Polling

    The client over time: a sequence of fetches, each against whatever the
    panel answers at that moment. *)

Inductive fetch : Type :=
  | FetchNode (send : Request -> Response)
  | FetchUsers (send : Request -> Response).

Definition after_fetch `{Externals} (c : APIClient) (f : fetch) : APIClient :=
  match f with
  | FetchNode send => snd (GetNodeInfo c send)
  | FetchUsers send => snd (GetUserList c send)
  end.

Definition after_fetches `{Externals} (c : APIClient) (fs : list fetch)
  : APIClient :=
  foldl after_fetch c fs.

(** The table holds tokens for the two resource keys only, none empty. *)
Definition table_ok (c : APIClient) : Prop :=
  forall key token,
    eTags c !! key = Some token ->
    (key = "node" \/ key = "userlist") /\ token <> "".

(** A panel whose resource has validator [etag] and body [body]: it answers
    304 to a request that carries that validator, and 200 with the
    validator and the body to any other. *)
Definition steady_panel (etag body : string) (q : Request) : Response :=
  if String.eqb (qIfNoneMatch q) etag
  then {| StatusCode := 304; Etag := etag; Body := ""; TransportErr := None |}
  else {| StatusCode := 200; Etag := etag; Body := body; TransportErr := None |}.

(** The number of IPs in a table of online users. *)
Definition total_ips (m : gmap Z (list string)) : nat :=
  map_fold (fun _ ips acc => (length ips + acc)%nat) 0%nat m.

(** Two tables of online users merged, the IPs of a user in both being
    concatenated. *)
Definition merge_online (m1 m2 : gmap Z (list string)) : gmap Z (list string) :=
  union_with (fun a b => Some (a ++ b)) m1 m2.

(** A descriptor with its protocol field replaced. *)
Definition with_protocol (p : string) (n : NodeInfoResponse)
  : NodeInfoResponse :=
  {| nProtocol := p; nNetwork := nNetwork n; nSecurity := nSecurity n;
     nPort := nPort n; nNodeSpeedLimit := nNodeSpeedLimit n;
     nVlessFlow := nVlessFlow n; nPath := nPath n; nHost := nHost n;
     nServiceName := nServiceName n; nType := nType n; nScy := nScy n;
     nServerKey := nServerKey n; nDest := nDest n; nSni := nSni n;
     nPrivateKey := nPrivateKey n |}.

(** ** Facts about float64 arithmetic

    Rounding keeps the sign of a non-zero integer, and is exact on
    mantissas whose dropped bits are zero: integers of at most 53 bits
    convert and multiply exactly, and division by 8 lowers the exponent. *)

Module Float64Facts.

Import Float64.

Lemma digits2_pos_bounds (m : positive) :
  2 ^ (Zpos (digits2_pos m) - 1) <= Zpos m < 2 ^ Zpos (digits2_pos m).
Proof.
  induction m as [m IH | m IH | ]; cbn [digits2_pos].
  - rewrite Pos2Z.inj_succ, Z.pow_succ_r by lia.
    replace (Z.succ (Zpos (digits2_pos m)) - 1) with (Z.succ (Zpos (digits2_pos m) - 1)) by lia.
    rewrite Z.pow_succ_r by lia. lia.
  - rewrite Pos2Z.inj_succ, Z.pow_succ_r by lia.
    replace (Z.succ (Zpos (digits2_pos m)) - 1) with (Z.succ (Zpos (digits2_pos m) - 1)) by lia.
    rewrite Z.pow_succ_r by lia. lia.
  - cbn. lia.
Qed.

Lemma shr_1_m (r : shr_record) :
  0 <= shr_m r -> shr_m (shr_1 r) = shr_m r / 2.
Proof.
  destruct r as [m b s]. cbn [shr_m]. intros Hm.
  destruct m as [ | [p | p | ] | p]; cbn [shr_1 shr_m];
    try reflexivity; try (exfalso; lia).
  - apply Z.div_unique with (r := 1); lia.
  - apply Z.div_unique with (r := 0); lia.
Qed.

Lemma iter_shr_1_m (p : positive) :
  forall r, 0 <= shr_m r ->
    shr_m (SpecFloat.iter_pos shr_1 p r) = shr_m r / 2 ^ Zpos p.
Proof.
  induction p as [p IH | p IH | ]; intros r Hr; cbn [SpecFloat.iter_pos].
  - assert (H1 : 0 <= shr_m (shr_1 r)).
    { rewrite shr_1_m by exact Hr. apply Z.div_pos; lia. }
    assert (H2 : 0 <= shr_m (SpecFloat.iter_pos shr_1 p (shr_1 r))).
    { rewrite IH by exact H1. apply Z.div_pos; lia. }
    rewrite IH, IH, shr_1_m by assumption.
    rewrite !Z.div_div by lia.
    f_equal. rewrite (Pos2Z.inj_xI p).
    replace (2 * Zpos p + 1) with (Z.succ (Zpos p + Zpos p)) by lia.
    rewrite Z.pow_succ_r by lia. rewrite Z.pow_add_r by lia. lia.
  - assert (H2 : 0 <= shr_m (SpecFloat.iter_pos shr_1 p r)).
    { rewrite IH by exact Hr. apply Z.div_pos; lia. }
    rewrite IH, IH by assumption.
    rewrite !Z.div_div by lia.
    f_equal. rewrite (Pos2Z.inj_xO p).
    replace (2 * Zpos p) with (Zpos p + Zpos p) by lia.
    rewrite Z.pow_add_r by lia. lia.
  - rewrite shr_1_m by exact Hr. reflexivity.
Qed.

(** A shift made by [shr_fexp] at an exponent not below [emin] leaves a
    positive mantissa positive. *)
Lemma shr_fexp_pos (m : positive) (e : Z) (l : location) :
  emin prec emax <= e ->
  0 < shr_m (fst (shr_fexp prec emax (Zpos m) e l)) /\
  emin prec emax <= snd (shr_fexp prec emax (Zpos m) e l).
Proof.
  intros He. unfold shr_fexp, shr.
  set (d := Zdigits2 (Zpos m)).
  assert (Hd : 2 ^ (d - 1) <= Zpos m < 2 ^ d) by apply digits2_pos_bounds.
  assert (Hd1 : 1 <= d) by (unfold d; cbn; lia).
  set (r := shr_record_of_loc (Zpos m) l).
  assert (Hr : shr_m r = Zpos m) by (unfold r; destruct l as [ | []]; reflexivity).
  destruct (fexp prec emax (d + e) - e) as [ | n | n] eqn:Hn; cbn [fst snd];
    try (rewrite Hr; lia).
  split; [ | lia ].
  rewrite iter_shr_1_m by (rewrite Hr; lia). rewrite Hr.
  unfold fexp, emin, prec, emax in *.
  assert (Hn' : Zpos n = d - 53) by lia.
  rewrite Hn'. apply Z.div_str_pos. split; [ apply Z.pow_pos_nonneg; lia | ].
  apply Z.le_trans with (2 ^ (d - 1)); [ | lia ].
  apply Z.pow_le_mono_r; lia.
Qed.

Lemma round_nearest_even_pos (m : Z) (l : location) :
  0 < m -> 0 < round_nearest_even m l.
Proof.
  intros Hm. destruct l as [ | [ | | ]]; cbn; try lia.
  destruct (Z.even m); lia.
Qed.

Lemma binary_round_aux_signed (s : bool) (m : positive) (e : Z) (l : location) :
  emin prec emax <= e ->
  signed s (binary_round_aux prec emax s (Zpos m) e l).
Proof.
  intros He. unfold binary_round_aux.
  destruct (shr_fexp_pos m e l He) as [Hm1 He1].
  destruct (shr_fexp prec emax (Zpos m) e l) as [mrs' e'].
  cbn [fst snd] in Hm1, He1.
  pose proof (round_nearest_even_pos _ (loc_of_shr_record mrs') Hm1) as Hr.
  destruct (round_nearest_even (shr_m mrs') (loc_of_shr_record mrs'))
    as [ | m1 | m1]; try lia.
  destruct (shr_fexp_pos m1 e' loc_Exact He1) as [Hm2 _].
  destruct (shr_fexp prec emax (Zpos m1) e' loc_Exact) as [mrs'' e''].
  cbn [fst] in Hm2.
  destruct (shr_m mrs'') as [ | m2 | m2]; try lia.
  destruct (e'' <=? emax - prec); reflexivity.
Qed.

Lemma binary_round_signed (s : bool) (m : positive) :
  signed s (binary_round prec emax s m 0).
Proof.
  unfold binary_round, shl_align.
  assert (Hf : emin prec emax <= fexp prec emax (Zpos (digits2_pos m) + 0)).
  { unfold fexp. lia. }
  destruct (fexp prec emax (Zpos (digits2_pos m) + 0) - 0) eqn:Hd;
    apply binary_round_aux_signed; unfold emin, prec, emax in *; lia.
Qed.

Lemma gt0_of_Z (z : Z) : gt0 (of_Z z) = (0 <? z).
Proof.
  unfold gt0, of_Z, binary_normalize.
  destruct z as [ | m | m].
  - reflexivity.
  - pose proof (binary_round_signed false m) as Hs.
    destruct (binary_round prec emax false m 0) as [ | s' | | s' m' e'];
      cbn in Hs; try contradiction; subst s'; reflexivity.
  - pose proof (binary_round_signed true m) as Hs.
    destruct (binary_round prec emax true m 0) as [ | s' | | s' m' e'];
      cbn in Hs; try contradiction; subst s'; reflexivity.
Qed.

Lemma iter_xO_value (k m : positive) :
  Zpos (Pos.iter xO m k) = Zpos m * 2 ^ Zpos k.
Proof.
  induction k as [ | k IH] using Pos.peano_ind.
  - cbn. lia.
  - rewrite Pos.iter_succ, Pos2Z.inj_xO, IH, Pos2Z.inj_succ.
    rewrite Z.pow_succ_r by lia. lia.
Qed.

Lemma digits2_pos_unique (m : positive) (d : Z) :
  2 ^ (d - 1) <= Zpos m < 2 ^ d -> Zpos (digits2_pos m) = d.
Proof.
  intros Hd. pose proof (digits2_pos_bounds m) as Hb.
  set (d' := Zpos (digits2_pos m)) in *.
  assert (Hd' : 0 < d') by (unfold d'; lia).
  assert (H0 : 0 < d).
  { destruct (Z_lt_le_dec 0 d) as [Hp | Hn]; [ exact Hp | ].
    exfalso. assert (2 ^ d <= 2 ^ 0) by (apply Z.pow_le_mono_r; lia).
    change (2 ^ 0) with 1 in *. lia. }
  destruct (Z.lt_trichotomy d' d) as [Hlt | [Heq | Hgt]]; [ | exact Heq | ].
  - exfalso. assert (2 ^ d' <= 2 ^ (d - 1)) by (apply Z.pow_le_mono_r; lia). lia.
  - exfalso. assert (2 ^ d <= 2 ^ (d' - 1)) by (apply Z.pow_le_mono_r; lia). lia.
Qed.

Lemma digits2_pos_shift (m : positive) (k : Z) (m' : positive) :
  0 <= k -> Zpos m' = Zpos m * 2 ^ k ->
  Zpos (digits2_pos m') = Zpos (digits2_pos m) + k.
Proof.
  intros Hk Hm. apply digits2_pos_unique.
  pose proof (digits2_pos_bounds m) as Hb. rewrite Hm.
  replace (Zpos (digits2_pos m) + k - 1) with ((Zpos (digits2_pos m) - 1) + k) by lia.
  rewrite !Z.pow_add_r by lia.
  assert (0 < 2 ^ k) by (apply Z.pow_pos_nonneg; lia). nia.
Qed.

(** Shifting out zero bits is exact. *)
Lemma iter_shr_1_exact (k : positive) :
  forall m : positive,
    SpecFloat.iter_pos shr_1 k (Build_shr_record (Zpos (Pos.iter xO m k)) false false) =
    Build_shr_record (Zpos m) false false.
Proof.
  induction k as [k IH | k IH | ]; intros m; cbn [SpecFloat.iter_pos Pos.iter].
  - cbn [shr_1 orb]. rewrite IH, IH. reflexivity.
  - rewrite IH, IH. reflexivity.
  - reflexivity.
Qed.

(** Rounding a mantissa whose bits below the target exponent are zero. *)
Lemma binary_round_aux_exact (s : bool) (m M : positive) (e k : Z) :
  0 <= k -> Zpos m = Zpos M * 2 ^ k ->
  fexp prec emax (Zdigits2 (Zpos m) + e) - e = k ->
  e + k <= emax - prec ->
  binary_round_aux prec emax s (Zpos m) e loc_Exact = S754_finite s M (e + k).
Proof.
  intros Hk Hm Hf He.
  pose proof (digits2_pos_shift M k m Hk Hm) as Hd.
  unfold binary_round_aux, shr_fexp. rewrite Hf.
  cbn [Zdigits2] in Hf.
  destruct k as [ | k | k]; [ | | lia ].
  - assert (m = M) by lia. subst m.
    cbn [shr shr_record_of_loc shr_m loc_of_shr_record round_nearest_even].
    cbn [Zdigits2]. rewrite Hf.
    cbn [shr shr_record_of_loc shr_m].
    rewrite Z.add_0_r.
    destruct (Z.leb_spec e (emax - prec)); [ reflexivity | lia ].
  - assert (Hm' : m = Pos.iter xO M k).
    { apply Pos2Z.inj. rewrite iter_xO_value. exact Hm. }
    subst m. cbn [shr shr_record_of_loc].
    rewrite iter_shr_1_exact.
    cbn [shr_m loc_of_shr_record round_nearest_even Zdigits2].
    replace (fexp prec emax (Zpos (digits2_pos M) + (e + Zpos k)) - (e + Zpos k))
      with 0.
    + cbn [shr shr_record_of_loc shr_m].
      destruct (Z.leb_spec (e + Zpos k) (emax - prec)); [ reflexivity | lia ].
    + rewrite Hd in Hf.
      replace (Zpos (digits2_pos M) + (e + Zpos k))
        with (Zpos (digits2_pos M) + Zpos k + e) by lia.
      lia.
Qed.

Lemma whole_mantissa (p : positive) :
  Zpos (digits2_pos p) <= 53 ->
  let M := Z.to_pos (Zpos p * 2 ^ (53 - Zpos (digits2_pos p))) in
  Zpos M = Zpos p * 2 ^ (53 - Zpos (digits2_pos p)) /\
  Zpos (digits2_pos M) = 53.
Proof.
  intros Hd M.
  assert (Hpow : 0 < 2 ^ (53 - Zpos (digits2_pos p))).
  { apply Z.pow_pos_nonneg; lia. }
  assert (HM : Zpos M = Zpos p * 2 ^ (53 - Zpos (digits2_pos p))).
  { unfold M. rewrite Z2Pos.id; [ reflexivity | nia ]. }
  split; [ exact HM | ].
  rewrite (digits2_pos_shift p (53 - Zpos (digits2_pos p)) M); [ lia | lia | exact HM ].
Qed.

Lemma of_Z_whole (p : positive) :
  Zpos (digits2_pos p) <= 53 -> of_Z (Zpos p) = whole p.
Proof.
  intros Hd. destruct (whole_mantissa p Hd) as [HM HdM].
  unfold of_Z, binary_normalize, binary_round, shl_align, whole.
  set (d := Zpos (digits2_pos p)) in *.
  assert (Hf : fexp prec emax (d + 0) = d - 53).
  { unfold fexp, emin, prec, emax, d. lia. }
  rewrite Hf.
  destruct (d - 53 - 0) as [ | q | q] eqn:Hq; [ | lia | ].
  - assert (Hd53 : d = 53) by lia.
    rewrite (binary_round_aux_exact false p p 0 0);
      [ | lia | lia | | unfold emax, prec; lia ].
    + f_equal; [ | lia ].
      apply Pos2Z.inj. rewrite HM, Hd53. cbn. lia.
    + cbn [Zdigits2]. fold d. rewrite Hd53. reflexivity.
  - rewrite (binary_round_aux_exact false (Pos.iter xO p q) (Pos.iter xO p q)
               (d - 53) 0); [ | lia | lia | | unfold emax, prec; lia ].
    + f_equal; [ | lia ].
      apply Pos2Z.inj. rewrite HM, iter_xO_value.
      f_equal. f_equal. lia.
    + cbn [Zdigits2].
      rewrite (digits2_pos_shift p (Zpos q) (Pos.iter xO p q));
        [ | lia | apply iter_xO_value ].
      fold d. replace (d + Zpos q + (d - 53)) with d by lia.
      unfold fexp, emin, prec, emax. lia.
Qed.

(** The product of two whole floats is the whole float of the product when
    that has at most 53 bits. *)
Lemma mul_whole (a b : positive) :
  Zpos (digits2_pos (a * b)) <= 53 ->
  mul (whole a) (whole b) = whole (a * b).
Proof.
  intros Hd.
  pose proof (digits2_pos_bounds a) as Ha.
  pose proof (digits2_pos_bounds b) as Hb.
  pose proof (digits2_pos_bounds (a * b)) as Hab.
  set (da := Zpos (digits2_pos a)) in *.
  set (db := Zpos (digits2_pos b)) in *.
  set (D := Zpos (digits2_pos (a * b))) in *.
  assert (Hda : 1 <= da) by (unfold da; lia).
  assert (Hdb : 1 <= db) by (unfold db; lia).
  assert (HD : da + db - 1 <= D <= da + db).
  { rewrite Pos2Z.inj_mul in Hab. split.
    - destruct (Z_lt_le_dec D (da + db - 1)) as [Hlt | ]; [ exfalso | lia ].
      assert (2 ^ D <= 2 ^ (da + db - 2)) by (apply Z.pow_le_mono_r; lia).
      replace (da + db - 2) with ((da - 1) + (db - 1)) in * by lia.
      rewrite Z.pow_add_r in * by lia.
      assert (0 < 2 ^ (da - 1)) by (apply Z.pow_pos_nonneg; lia).
      assert (0 < 2 ^ (db - 1)) by (apply Z.pow_pos_nonneg; lia).
      nia.
    - destruct (Z_lt_le_dec (da + db) D) as [Hlt | ]; [ exfalso | lia ].
      assert (2 ^ (da + db) <= 2 ^ (D - 1)) by (apply Z.pow_le_mono_r; lia).
      rewrite Z.pow_add_r in * by lia.
      assert (0 < 2 ^ da) by (apply Z.pow_pos_nonneg; lia).
      assert (0 < 2 ^ db) by (apply Z.pow_pos_nonneg; lia).
      nia. }
  assert (Hda53 : da <= 53) by lia.
  assert (Hdb53 : db <= 53) by lia.
  destruct (whole_mantissa a Hda53) as [HMa HdMa].
  destruct (whole_mantissa b Hdb53) as [HMb HdMb].
  destruct (whole_mantissa (a * b) Hd) as [HM HdM].
  fold da in HMa, HdMa. fold db in HMb, HdMb. fold D in HM, HdM.
  unfold mul, whole. fold da db D. cbn [SFmul xorb].
  set (Ma := Z.to_pos (Zpos a * 2 ^ (53 - da))) in *.
  set (Mb := Z.to_pos (Zpos b * 2 ^ (53 - db))) in *.
  set (M := Z.to_pos (Zpos (a * b) * 2 ^ (53 - D))) in *.
  assert (Hprod : Zpos (Ma * Mb) = Zpos M * 2 ^ (53 + D - da - db)).
  { rewrite Pos2Z.inj_mul, HMa, HMb, HM, Pos2Z.inj_mul.
    replace (Zpos a * 2 ^ (53 - da) * (Zpos b * 2 ^ (53 - db)))
      with (Zpos a * Zpos b * (2 ^ (53 - da) * 2 ^ (53 - db))) by ring.
    replace (Zpos a * Zpos b * 2 ^ (53 - D) * 2 ^ (53 + D - da - db))
      with (Zpos a * Zpos b * (2 ^ (53 - D) * 2 ^ (53 + D - da - db))) by ring.
    rewrite <- !Z.pow_add_r by lia.
    f_equal. f_equal. lia. }
  rewrite (binary_round_aux_exact false (Ma * Mb) M (da - 53 + (db - 53))
             (53 + D - da - db)); [ | lia | exact Hprod | | unfold emax, prec; lia ].
  - f_equal. lia.
  - cbn [Zdigits2].
    rewrite (digits2_pos_shift M (53 + D - da - db) (Ma * Mb)); [ | lia | exact Hprod ].
    rewrite HdM.
    replace (53 + (53 + D - da - db) + (da - 53 + (db - 53))) with D by lia.
    unfold fexp, emin, prec, emax. lia.
Qed.

(** Dividing a whole float by 8 only lowers its exponent by 3. *)
Lemma div_whole_8 (p : positive) :
  Zpos (digits2_pos p) <= 53 ->
  div (whole p) (of_Z 8) =
  S754_finite false
    (Z.to_pos (Zpos p * 2 ^ (53 - Zpos (digits2_pos p))))
    (Zpos (digits2_pos p) - 56).
Proof.
  intros Hd. destruct (whole_mantissa p Hd) as [HM HdM].
  change (of_Z 8) with (S754_finite false 4503599627370496 (-49)).
  unfold div, whole.
  set (d := Zpos (digits2_pos p)) in *.
  set (M := Z.to_pos (Zpos p * 2 ^ (53 - d))) in *.
  assert (Hd1 : 1 <= d) by (unfold d; lia).
  cbn [SFdiv xorb]. unfold SFdiv_core_binary.
  cbn [Zdigits2]. rewrite HdM.
  change (Zpos (digits2_pos 4503599627370496)) with 53.
  assert (He' : Z.min (fexp prec emax (53 + (d - 53) - (53 + -49)))
                      (d - 53 - -49) = d - 57).
  { unfold fexp, emin, prec, emax. lia. }
  rewrite He'.
  replace (d - 53 - -49 - (d - 57)) with 53 by lia.
  rewrite Z.shiftl_mul_pow2 by lia.
  assert (Hq : Z.div_eucl (Zpos M * 2 ^ 53) 4503599627370496 = (Zpos (xO M), 0)).
  { pose proof (Z_div_mod (Zpos M * 2 ^ 53) 4503599627370496 eq_refl) as Hdm.
    destruct (Z.div_eucl (Zpos M * 2 ^ 53) 4503599627370496) as [q r].
    destruct Hdm as [Heq Hr].
    change (2 ^ 53) with 9007199254740992 in Heq.
    rewrite Pos2Z.inj_xO. f_equal; lia. }
  rewrite Hq.
  change (new_location 4503599627370496 0) with loc_Exact.
  rewrite (binary_round_aux_exact false (xO M) M (d - 57) 1);
    [ | lia | rewrite Pos2Z.inj_xO; change (2 ^ 1) with 2; lia | | unfold emax, prec; lia ].
  - f_equal. lia.
  - cbn [Zdigits2 digits2_pos]. rewrite Pos2Z.inj_succ, HdM.
    unfold fexp, emin, prec, emax. lia.
Qed.

(** Megabits per second to bytes per second on a whole number of megabits
    whose product with 1000000 has at most 53 bits. *)
Lemma whole_mbps_to_bytes (u : float64 -> Z) (z : Z) :
  0 < z -> z * 1000000 < 2 ^ 53 ->
  to_uint64 u (div (mul (of_Z z) (of_Z 1000000)) (of_Z 8)) = z * 125000.
Proof.
  intros Hz Hfit. destruct z as [ | p | p]; try lia.
  assert (Hdig : forall q : positive, Zpos q < 2 ^ 53 -> Zpos (digits2_pos q) <= 53).
  { intros q Hq. pose proof (digits2_pos_bounds q) as Hb.
    destruct (Z_lt_le_dec 53 (Zpos (digits2_pos q))) as [Hlt | ]; [ exfalso | lia ].
    assert (2 ^ 53 <= 2 ^ (Zpos (digits2_pos q) - 1)) by (apply Z.pow_le_mono_r; lia).
    lia. }
  assert (Hdp : Zpos (digits2_pos p) <= 53) by (apply Hdig; lia).
  assert (Hdq : Zpos (digits2_pos (p * 1000000)) <= 53).
  { apply Hdig. rewrite Pos2Z.inj_mul. exact Hfit. }
  rewrite (of_Z_whole p Hdp).
  rewrite (of_Z_whole 1000000) by (cbn; lia).
  rewrite (mul_whole p 1000000 Hdq).
  rewrite (div_whole_8 (p * 1000000) Hdq).
  destruct (whole_mantissa (p * 1000000) Hdq) as [HM _].
  pose proof (digits2_pos_bounds (p * 1000000)) as Hb.
  set (D := Zpos (digits2_pos (p * 1000000))) in *.
  set (M := Z.to_pos (Zpos (p * 1000000) * 2 ^ (53 - D))) in *.
  assert (HD1 : 1 <= D) by (unfold D; lia).
  unfold to_uint64, trunc.
  destruct (D - 56) as [ | e | e] eqn:He; try lia.
  assert (Hv : Zpos M / 2 ^ Zpos e = Zpos p * 125000).
  { rewrite HM, Pos2Z.inj_mul.
    replace (Zpos e) with ((53 - D) + 3) by lia.
    rewrite Z.pow_add_r by lia. change (2 ^ 3) with 8.
    assert (Hpow : 0 < 2 ^ (53 - D)) by (apply Z.pow_pos_nonneg; lia).
    replace (Zpos p * 1000000 * 2 ^ (53 - D))
      with (Zpos p * 125000 * (2 ^ (53 - D) * 8)) by ring.
    apply Z.div_mul. lia. }
  rewrite Hv.
  change (2 ^ 53) with 9007199254740992 in Hfit.
  change (2 ^ 64) with 18446744073709551616.
  destruct (Z.leb_spec 0 (Zpos p * 125000)); [ | lia ].
  destruct (Z.ltb_spec (Zpos p * 125000) 18446744073709551616); [ | lia ].
  reflexivity.
Qed.

End Float64Facts.

(** ** Properties *)

Section Properties.

Context `{Externals}.

Ltac split_descriptor n :=
  destruct n as [protocol network security port limit flow path host
                 service type scy skey dest sni pkey].

Lemma option_eq_None_or {A : Type} (x : option A) : x = None \/ x <> None.
Proof. destruct x; [ right; discriminate | left; reflexivity ]. Qed.

Ltac by_eqb s lit :=
  destruct (String.eqb_spec s lit) as [-> | ?]; cbn.

(** Marshalling the camouflage map cannot fail, and gives its JSON text. *)
Lemma Marshal_camouflage (n : NodeInfoResponse) :
  Json.Marshal quote (camouflage n) = (Some (camouflage_json n), None).
Proof.
  unfold Json.Marshal, camouflage, camouflage_json. vm_compute. reflexivity.
Qed.

Lemma is_vless_spec (p : string) :
  is_vless p = true <-> p = "vless" \/ p = "Vless".
Proof.
  unfold is_vless. rewrite orb_true_iff, !String.eqb_eq. reflexivity.
Qed.

Lemma is_vmess_spec (p : string) :
  is_vmess p = true <-> p = "vmess" \/ p = "Vmess".
Proof.
  unfold is_vmess. rewrite orb_true_iff, !String.eqb_eq. reflexivity.
Qed.

Lemma is_shadowsocks_spec (p : string) :
  is_shadowsocks p = true <-> p = "Shadowsocks" \/ p = "shadowsocks".
Proof.
  unfold is_shadowsocks. rewrite orb_true_iff, !String.eqb_eq. reflexivity.
Qed.

Lemma recognized_spec (p : string) :
  recognized p = true <-> In p protocol_spellings.
Proof.
  unfold recognized. rewrite !orb_true_iff, is_vless_spec, is_vmess_spec,
    is_shadowsocks_spec. cbn. intuition congruence.
Qed.

(** The protocol classes exclude one another. *)
Lemma protocol_classes (p : string) :
  (is_vless p = true -> is_vmess p = false /\ is_shadowsocks p = false) /\
  (is_vmess p = true -> is_vless p = false /\ is_shadowsocks p = false) /\
  (is_shadowsocks p = true -> is_vless p = false /\ is_vmess p = false).
Proof.
  unfold is_vless, is_vmess, is_shadowsocks.
  repeat (split || intro);
    repeat match goal with
    | Hq : (_ || _) = true |- _ => apply orb_prop in Hq; destruct Hq as [Hq | Hq]
    | Hq : String.eqb p _ = true |- _ => apply String.eqb_eq in Hq; subst p
    end; reflexivity.
Qed.

Lemma class_cases (p : string) :
  is_vless p = true \/ is_vmess p = true \/ is_shadowsocks p = true
  \/ recognized p = false.
Proof.
  unfold recognized.
  destruct (is_vless p); [ now left | right ].
  destruct (is_vmess p); [ now left | right ].
  destruct (is_shadowsocks p); [ now left | now right ].
Qed.

(** What [ParseAirGoNodeInfo] returns, by protocol class. *)
Lemma Parse_vless (c : APIClient) (n : NodeInfoResponse) :
  is_vless (nProtocol n) = true ->
  let o := fst (ParseAirGoNodeInfo c n) in
  EnableVless o = true /\ VlessFlow o = nVlessFlow n /\
  NodeType o = cNodeType c /\ NodeID o = cNodeID c /\
  Port o = GoInt.uint32 (nPort n) /\
  TransportProtocol o = nNetwork n /\
  EnableTLS o = negb (security_off (nSecurity n)) /\
  Path o = nPath n /\ Host o = nHost n /\ ServiceName o = nServiceName n /\
  EnableREALITY o = String.eqb (nSecurity n) "reality" /\
  REALITYConfig_ o = Some (if String.eqb (nSecurity n) "reality"
                           then reality_of n else zero_REALITYConfig) /\
  AlterID o = 0 /\ CypherMethod o = "" /\ ServerKey o = "" /\
  Header o = (if String.eqb (nNetwork n) "tcp" && String.eqb (nType n) "http"
              then Some (camouflage_json n) else None).
Proof.
  intros Hp. unfold ParseAirGoNodeInfo, security_off, reality_of.
  unfold is_vless in Hp. rewrite Hp. clear Hp.
  split_descriptor n. cbn [nSecurity nNetwork nType nProtocol nPort nPath nHost
    nVlessFlow nServiceName nDest nSni nPrivateKey nScy nServerKey
    nNodeSpeedLimit].
  rewrite Marshal_camouflage.
  by_eqb security "none"; [ | by_eqb security "" ; [ | by_eqb security "reality" ] ];
    (by_eqb network "grpc"; [ | by_eqb network "ws";
       [ | by_eqb network "tcp"; [ by_eqb type "http" | ] ] ]);
    repeat split; reflexivity.
Qed.

Lemma Parse_vmess (c : APIClient) (n : NodeInfoResponse) :
  is_vmess (nProtocol n) = true ->
  let o := fst (ParseAirGoNodeInfo c n) in
  EnableVless o = false /\ VlessFlow o = "" /\
  NodeType o = cNodeType c /\ NodeID o = cNodeID c /\
  Port o = GoInt.uint32 (nPort n) /\
  TransportProtocol o = nNetwork n /\
  EnableTLS o = negb (security_off (nSecurity n)) /\
  Path o = nPath n /\ Host o = nHost n /\ ServiceName o = nServiceName n /\
  EnableREALITY o = String.eqb (nSecurity n) "reality" /\
  REALITYConfig_ o = None /\
  AlterID o = 0 /\ CypherMethod o = nScy n /\ ServerKey o = "" /\
  Header o = (if String.eqb (nNetwork n) "tcp" && String.eqb (nType n) "http"
              then Some (camouflage_json n) else None).
Proof.
  intros Hp. unfold ParseAirGoNodeInfo, security_off.
  destruct (protocol_classes (nProtocol n)) as (_ & Hc & _).
  destruct (Hc Hp) as [Hv _]. unfold is_vless, is_vmess in Hv, Hp.
  rewrite Hv, Hp. clear Hc Hv Hp.
  split_descriptor n. cbn [nSecurity nNetwork nType nProtocol nPort nPath nHost
    nVlessFlow nServiceName nDest nSni nPrivateKey nScy nServerKey
    nNodeSpeedLimit].
  rewrite Marshal_camouflage.
  by_eqb security "none"; [ | by_eqb security "" ; [ | by_eqb security "reality" ] ];
    (by_eqb network "grpc"; [ | by_eqb network "ws";
       [ | by_eqb network "tcp"; [ by_eqb type "http" | ] ] ]);
    repeat split; reflexivity.
Qed.

Lemma Parse_shadowsocks (c : APIClient) (n : NodeInfoResponse) :
  is_shadowsocks (nProtocol n) = true ->
  let o := fst (ParseAirGoNodeInfo c n) in
  EnableVless o = false /\ VlessFlow o = "" /\
  NodeType o = cNodeType c /\ NodeID o = cNodeID c /\
  Port o = GoInt.uint32 (nPort n) /\
  TransportProtocol o = "tcp" /\
  EnableTLS o = false /\
  Path o = "" /\ Host o = "" /\ ServiceName o = "" /\
  EnableREALITY o = false /\
  REALITYConfig_ o = None /\
  AlterID o = 0 /\ CypherMethod o = nScy n /\ ServerKey o = nServerKey n /\
  Header o = (if String.eqb (nType n) "http"
              then Some (camouflage_json n) else None).
Proof.
  intros Hp. unfold ParseAirGoNodeInfo.
  destruct (protocol_classes (nProtocol n)) as (_ & _ & Hc).
  destruct (Hc Hp) as [Hv Hm']. unfold is_vless, is_vmess, is_shadowsocks in Hv, Hm', Hp.
  rewrite Hv, Hm', Hp. clear Hc Hv Hm' Hp.
  split_descriptor n. cbn [nSecurity nNetwork nType nProtocol nPort nPath nHost
    nVlessFlow nServiceName nDest nSni nPrivateKey nScy nServerKey
    nNodeSpeedLimit].
  rewrite Marshal_camouflage.
  destruct (String.eqb security "reality");
    by_eqb type "http"; repeat split; reflexivity.
Qed.

Lemma Parse_other (c : APIClient) (n : NodeInfoResponse) :
  recognized (nProtocol n) = false ->
  ParseAirGoNodeInfo c n = (zero_NodeInfo, None).
Proof.
  unfold recognized, is_vless, is_vmess, is_shadowsocks. intros Hp.
  apply orb_false_elim in Hp. destruct Hp as [Hp Hs].
  apply orb_false_elim in Hp. destruct Hp as [Hv Hm].
  unfold ParseAirGoNodeInfo. rewrite Hv, Hm, Hs.
  destruct (String.eqb (nSecurity n) "reality"); reflexivity.
Qed.

Lemma Parse_error (c : APIClient) (n : NodeInfoResponse) :
  snd (ParseAirGoNodeInfo c n) = None.
Proof.
  unfold ParseAirGoNodeInfo.
  destruct (String.eqb (nSecurity n) "reality"); reflexivity.
Qed.

(** The speed limit of a recognized protocol's configuration. *)
Lemma Parse_SpeedLimit (c : APIClient) (n : NodeInfoResponse) :
  recognized (nProtocol n) = true ->
  SpeedLimit (fst (ParseAirGoNodeInfo c n)) =
  if Float64.gt0 (nNodeSpeedLimit n)
  then to_uint64 (Float64.div
         (Float64.mul (nNodeSpeedLimit n) (Float64.of_Z 1000000))
         (Float64.of_Z 8))
  else to_uint64 (Float64.div
         (Float64.mul (cSpeedLimit c) (Float64.of_Z 1000000))
         (Float64.of_Z 8)).
Proof.
  intros Hp. unfold ParseAirGoNodeInfo. rewrite Marshal_camouflage.
  destruct (protocol_classes (nProtocol n)) as (Hv & Hm & Hs).
  destruct (class_cases (nProtocol n)) as [Hc | [Hc | [Hc | Hc]]];
    [ clear Hv Hm Hs
    | destruct (Hm Hc) as [Hx _]; clear Hv Hm Hs
    | destruct (Hs Hc) as [Hx Hy]; clear Hv Hm Hs
    | congruence ];
    clear Hp; unfold is_vless, is_vmess, is_shadowsocks in *;
    repeat match goal with
           | Hq : (_ || _) = _ |- _ => rewrite Hq; clear Hq
           end;
    repeat match goal with
           | |- context [String.eqb ?a ?b] => destruct (String.eqb a b)
           end;
    reflexivity.
Qed.

(** The two security flags, whatever the protocol. *)
Lemma Parse_flags (c : APIClient) (n : NodeInfoResponse) :
  let o := fst (ParseAirGoNodeInfo c n) in
  let v2 := is_vless (nProtocol n) || is_vmess (nProtocol n) in
  EnableTLS o = v2 && negb (security_off (nSecurity n)) /\
  EnableREALITY o = v2 && String.eqb (nSecurity n) "reality".
Proof.
  cbv zeta.
  destruct (class_cases (nProtocol n)) as [Hp | [Hp | [Hp | Hp]]].
  - destruct (Parse_vless c n Hp)
      as (_ & _ & _ & _ & _ & _ & Ht & _ & _ & _ & Hr & _).
    rewrite Ht, Hr, Hp. split; reflexivity.
  - destruct (Parse_vmess c n Hp)
      as (_ & _ & _ & _ & _ & _ & Ht & _ & _ & _ & Hr & _).
    rewrite Ht, Hr, Hp, orb_true_r. split; reflexivity.
  - destruct (Parse_shadowsocks c n Hp)
      as (_ & _ & _ & _ & _ & _ & Ht & _ & _ & _ & Hr & _).
    destruct (protocol_classes (nProtocol n)) as (_ & _ & Hc).
    destruct (Hc Hp) as [Hv Hm].
    rewrite Ht, Hr, Hv, Hm. split; reflexivity.
  - rewrite (Parse_other c n Hp).
    unfold recognized in Hp.
    apply orb_false_elim in Hp. destruct Hp as [Hp _].
    apply orb_false_elim in Hp. destruct Hp as [Hv Hm].
    rewrite Hv, Hm. split; reflexivity.
Qed.

(** C1 (as amended): the TLS flag is on exactly for a vless or vmess
    descriptor whose security mode is neither "none" nor empty, the REALITY
    flag exactly for a vless or vmess descriptor whose security mode is
    "reality"; REALITY is therefore never on without TLS, and the two are on
    together exactly for "reality" on vless or vmess. *)
Theorem security_flags (c : APIClient) (n : NodeInfoResponse) :
  let o := fst (ParseAirGoNodeInfo c n) in
  let v2 := is_vless (nProtocol n) || is_vmess (nProtocol n) in
  EnableTLS o = v2 && negb (security_off (nSecurity n)) /\
  EnableREALITY o = v2 && String.eqb (nSecurity n) "reality" /\
  implb (EnableREALITY o) (EnableTLS o) = true /\
  EnableTLS o && EnableREALITY o = v2 && String.eqb (nSecurity n) "reality".
Proof.
  cbv zeta. destruct (Parse_flags c n) as [Ht Hr]. cbv zeta in Ht, Hr.
  rewrite Ht, Hr.
  destruct (is_vless (nProtocol n) || is_vmess (nProtocol n));
    [ | repeat split; reflexivity ].
  destruct (String.eqb_spec (nSecurity n) "reality") as [Hs | Hs].
  - rewrite Hs. repeat split; reflexivity.
  - destruct (security_off (nSecurity n)); repeat split; reflexivity.
Qed.

(** C2 (as amended): security mode "none" or empty turns both flags off;
    security mode "reality" turns REALITY on for vless and for vmess, with
    the REALITY configuration of the claim on vless; on shadowsocks REALITY
    stays off and no REALITY configuration is carried. *)
Theorem security_mode_outputs (c : APIClient) (n : NodeInfoResponse) :
  let o := fst (ParseAirGoNodeInfo c n) in
  (nSecurity n = "none" \/ nSecurity n = "" ->
   EnableTLS o = false /\ EnableREALITY o = false) /\
  (nSecurity n = "reality" ->
   (nProtocol n = "vless" \/ nProtocol n = "Vless" ->
    EnableREALITY o = true /\
    exists r, REALITYConfig_ o = Some r /\
      Dest r = nDest n /\ ServerNames r = [nSni n] /\
      PrivateKey r = nPrivateKey n /\
      ShortIds r = [""; "0123456789abcdef"] /\
      ProxyProtocolVer r = 0 /\ MaxTimeDiff r = 0 /\
      MinClientVer r = "" /\ MaxClientVer r = "") /\
   (nProtocol n = "vmess" \/ nProtocol n = "Vmess" ->
    EnableREALITY o = true) /\
   (nProtocol n = "Shadowsocks" \/ nProtocol n = "shadowsocks" ->
    EnableREALITY o = false /\ REALITYConfig_ o = None)).
Proof.
  cbv zeta. destruct (Parse_flags c n) as [Ht Hr]. cbv zeta in Ht, Hr.
  split.
  - intros Hoff. rewrite Ht, Hr.
    assert (Hs : security_off (nSecurity n) = true).
    { unfold security_off. destruct Hoff as [-> | ->]; reflexivity. }
    rewrite Hs. destruct Hoff as [-> | ->]; cbn; rewrite !andb_false_r; auto.
  - intros Hreal. split; [ intros Hp | split; intros Hp ].
    + apply is_vless_spec in Hp.
      destruct (Parse_vless c n Hp)
        as (_ & _ & _ & _ & _ & _ & _ & _ & _ & _ & _ & Hc & _).
      split; [ rewrite Hr, Hp, Hreal; reflexivity | ].
      rewrite Hc, Hreal. cbn. eexists. split; [ reflexivity | ].
      cbn. repeat split; reflexivity.
    + apply is_vmess_spec in Hp. rewrite Hr, Hp, Hreal, orb_true_r. reflexivity.
    + apply is_shadowsocks_spec in Hp.
      destruct (Parse_shadowsocks c n Hp)
        as (_ & _ & _ & _ & _ & _ & _ & _ & _ & _ & He & Hc & _).
      split; assumption.
Qed.

(** C3 (as amended): the protocol field is compared exactly with the six
    spellings of the [switch]. Each spelling gives the configuration of its
    shape, which differs from the zero value for vless and shadowsocks; any
    other string, another capitalization included, gives the zero-value
    configuration; the error is nil throughout. *)
Theorem protocol_dispatch (c : APIClient) (n : NodeInfoResponse) :
  let r := ParseAirGoNodeInfo c n in
  let o := fst r in
  snd r = None /\
  (nProtocol n = "vless" \/ nProtocol n = "Vless" ->
   EnableVless o = true /\ VlessFlow o = nVlessFlow n /\
   TransportProtocol o = nNetwork n /\ Path o = nPath n /\
   Host o = nHost n /\ ServiceName o = nServiceName n /\
   NodeType o = cNodeType c /\ NodeID o = cNodeID c /\
   o <> zero_NodeInfo) /\
  (nProtocol n = "vmess" \/ nProtocol n = "Vmess" ->
   EnableVless o = false /\ AlterID o = 0 /\ CypherMethod o = nScy n /\
   TransportProtocol o = nNetwork n /\ Path o = nPath n /\
   Host o = nHost n /\ ServiceName o = nServiceName n /\
   NodeType o = cNodeType c /\ NodeID o = cNodeID c) /\
  (nProtocol n = "Shadowsocks" \/ nProtocol n = "shadowsocks" ->
   TransportProtocol o = "tcp" /\ CypherMethod o = nScy n /\
   ServerKey o = nServerKey n /\
   NodeType o = cNodeType c /\ NodeID o = cNodeID c /\
   o <> zero_NodeInfo) /\
  (~ In (nProtocol n) protocol_spellings -> o = zero_NodeInfo).
Proof.
  cbv zeta. split; [ apply Parse_error | ].
  split; [ | split; [ | split ] ]; intros Hp.
  - apply is_vless_spec in Hp.
    destruct (Parse_vless c n Hp)
      as (Hv & Hf & Ht & Hi & _ & Hn & _ & Hpa & Hh & Hs & _).
    repeat split; try assumption.
    intros Hz. rewrite Hz in Hv. discriminate Hv.
  - apply is_vmess_spec in Hp.
    destruct (Parse_vmess c n Hp)
      as (Hv & _ & Ht & Hi & _ & Hn & _ & Hpa & Hh & Hs & _ & _ & Ha & Hc & _).
    repeat split; assumption.
  - apply is_shadowsocks_spec in Hp.
    destruct (Parse_shadowsocks c n Hp)
      as (_ & _ & Ht & Hi & _ & Hn & _ & _ & _ & _ & _ & _ & _ & Hc & Hk & _).
    repeat split; try assumption.
    intros Hz. rewrite Hz in Hn. discriminate Hn.
  - rewrite Parse_other; [ reflexivity | ].
    destruct (recognized (nProtocol n)) eqn:Hr; [ | reflexivity ].
    apply recognized_spec in Hr. contradiction.
Qed.

(** C4: the camouflage header is set exactly when the output transport is
    "tcp" and the camouflage type is "http"; vless and vmess look at the
    type only on network "tcp", shadowsocks whatever the network; a header
    that is set is the JSON text of
    {type: "http", request: {path: [path], headers: {Host: [host]}}}. *)
Theorem camouflage_header (c : APIClient) (n : NodeInfoResponse) :
  let o := fst (ParseAirGoNodeInfo c n) in
  (Header o <> None <-> TransportProtocol o = "tcp" /\ nType n = "http") /\
  (is_vless (nProtocol n) || is_vmess (nProtocol n) = true ->
   (nNetwork n <> "tcp" -> Header o = None) /\
   (nNetwork n = "tcp" -> (Header o <> None <-> nType n = "http"))) /\
  (is_shadowsocks (nProtocol n) = true ->
   (Header o <> None <-> nType n = "http")) /\
  (Header o <> None ->
   Header o = Some (camouflage_json n) /\
   Header o =
   fst (Json.Marshal quote
          (AMap [ ("type", AString "http");
                  ("request",
                   AMap [ ("path", AStrings [nPath n]);
                          ("headers",
                           AMap [ ("Host", AStrings [nHost n]) ]) ]) ]))).
Proof.
  cbv zeta.
  assert (Hcases :
    forall (t : string) (h : option string),
      h = (if String.eqb t "tcp" && String.eqb (nType n) "http"
           then Some (camouflage_json n) else None) ->
      (h <> None <-> t = "tcp" /\ nType n = "http") /\
      (h <> None -> h = Some (camouflage_json n))).
  { intros t h ->.
    destruct (String.eqb_spec t "tcp") as [-> | Ht];
      destruct (String.eqb_spec (nType n) "http") as [Hy | Hy]; cbn;
      (split; [ split; [ intros Hne | intros [Ha Hb] ] | intros Hne ]);
      try congruence; auto. }
  assert (Hss : Header (fst (ParseAirGoNodeInfo c n)) =
                (if String.eqb "tcp" "tcp" && String.eqb (nType n) "http"
                 then Some (camouflage_json n) else None) ->
                TransportProtocol (fst (ParseAirGoNodeInfo c n)) = "tcp" ->
    (Header (fst (ParseAirGoNodeInfo c n)) <> None <->
       TransportProtocol (fst (ParseAirGoNodeInfo c n)) = "tcp" /\
       nType n = "http") /\
    (Header (fst (ParseAirGoNodeInfo c n)) <> None ->
       Header (fst (ParseAirGoNodeInfo c n)) = Some (camouflage_json n))).
  { intros Hh Ht. rewrite Ht. exact (Hcases "tcp" _ Hh). }
  assert (Hm : fst (Json.Marshal quote (camouflage n)) = Some (camouflage_json n)).
  { rewrite Marshal_camouflage. reflexivity. }
  unfold camouflage in Hm.
  destruct (class_cases (nProtocol n)) as [Hp | [Hp | [Hp | Hp]]].
  - destruct (Parse_vless c n Hp)
      as (_ & _ & _ & _ & _ & Ht & _ & _ & _ & _ & _ & _ & _ & _ & _ & Hh).
    destruct (protocol_classes (nProtocol n)) as (Hc & _ & _).
    destruct (Hc Hp) as [_ Hs].
    rewrite Ht. destruct (Hcases _ _ Hh) as [Hiff Hset].
    split; [ exact Hiff | ]. split; [ | split ].
    + intros _. split.
      * intros Hne. destruct (option_eq_None_or (Header (fst (ParseAirGoNodeInfo c n)))) as [He | He];
          [ exact He | ]. apply Hiff in He. tauto.
      * intros Hn. rewrite Hiff. tauto.
    + rewrite Hs. discriminate.
    + intros Hne. split; [ auto | ]. rewrite Hm. auto.
  - destruct (Parse_vmess c n Hp)
      as (_ & _ & _ & _ & _ & Ht & _ & _ & _ & _ & _ & _ & _ & _ & _ & Hh).
    destruct (protocol_classes (nProtocol n)) as (_ & Hc & _).
    destruct (Hc Hp) as [_ Hs].
    rewrite Ht. destruct (Hcases _ _ Hh) as [Hiff Hset].
    split; [ exact Hiff | ]. split; [ | split ].
    + intros _. split.
      * intros Hne. destruct (option_eq_None_or (Header (fst (ParseAirGoNodeInfo c n)))) as [He | He];
          [ exact He | ]. apply Hiff in He. tauto.
      * intros Hn. rewrite Hiff. tauto.
    + rewrite Hs. discriminate.
    + intros Hne. split; [ auto | ]. rewrite Hm. auto.
  - destruct (Parse_shadowsocks c n Hp)
      as (_ & _ & _ & _ & _ & Ht & _ & _ & _ & _ & _ & _ & _ & _ & _ & Hh).
    destruct (protocol_classes (nProtocol n)) as (_ & _ & Hc).
    destruct (Hc Hp) as [Hv Hvm].
    destruct (Hss Hh Ht) as [Hiff Hset].
    split; [ exact Hiff | ]. split; [ | split ].
    + rewrite Hv, Hvm. discriminate.
    + intros _. rewrite Hiff, Ht. tauto.
    + intros Hne. split; [ auto | ]. rewrite Hm. auto.
  - rewrite (Parse_other c n Hp). cbn.
    unfold recognized in Hp.
    apply orb_false_elim in Hp. destruct Hp as [Hp Hs].
    rewrite Hp, Hs.
    split; [ split; [ congruence | intros [Ha _]; discriminate Ha ] | ].
    split; [ discriminate | ]. split; [ discriminate | congruence ].
Qed.

(** C5: a shadowsocks descriptor gives transport "tcp" whatever its network
    field, carries the cipher method and the server key, and has no TLS, no
    REALITY and no REALITY configuration whatever its security mode. *)
Theorem shadowsocks_shape (c : APIClient) (n : NodeInfoResponse) :
  nProtocol n = "shadowsocks" \/ nProtocol n = "Shadowsocks" ->
  let o := fst (ParseAirGoNodeInfo c n) in
  TransportProtocol o = "tcp" /\
  CypherMethod o = nScy n /\ ServerKey o = nServerKey n /\
  EnableTLS o = false /\ EnableREALITY o = false /\
  REALITYConfig_ o = None.
Proof.
  intros Hp. cbv zeta.
  assert (Hs : is_shadowsocks (nProtocol n) = true).
  { apply is_shadowsocks_spec. tauto. }
  destruct (Parse_shadowsocks c n Hs)
    as (_ & _ & _ & _ & _ & Ht & Htls & _ & _ & _ & Hr & Hc & _ & Hm & Hk & _).
  repeat split; assumption.
Qed.

(** C10: [ParseAirGoNodeInfo] returns a nil error on every descriptor, so
    [GetNodeInfo] never fails with "parse node info failed". *)
Theorem ParseAirGoNodeInfo_nil_error (c : APIClient) (n : NodeInfoResponse) :
  snd (ParseAirGoNodeInfo c n) = None /\
  forall (send : Request -> Response) (body : string) (e : error),
    snd (fst (GetNodeInfo c send)) <> Some (ParseNodeInfoFailed body e).
Proof.
  split; [ apply Parse_error | ].
  intros send body e. unfold GetNodeInfo.
  destruct (StatusCode _ =? 304); [ discriminate | ].
  destruct (Unmarshal_NodeInfoResponse _) as [msg | r]; [ discriminate | ].
  pose proof (Parse_error (updateETag c (send {|
        qPath := "/api/public/airgo/node/getNodeInfo";
        qID := cNodeID c; qIfNoneMatch := eTag c "node" |}) "node") r) as He.
  destruct (ParseAirGoNodeInfo _ r) as [i [e' | ]]; cbn in He;
    [ discriminate He | discriminate ].
Qed.

(** [updateETag] either leaves the client as it is or stores a non-empty
    token that differs from the stored one. *)
Lemma updateETag_cases (c : APIClient) (res : Response) (key : string) :
  (Etag res = "" \/ Etag res = eTag c key) /\ updateETag c res key = c \/
  Etag res <> "" /\ Etag res <> eTag c key /\
  updateETag c res key = set_eTags c (<[key := Etag res]> (eTags c)).
Proof.
  unfold updateETag.
  destruct (String.eqb_spec (Etag res) "") as [He | He]; cbn;
    [ left; auto | ].
  destruct (String.eqb_spec (Etag res) (eTag c key)) as [Hs | Hs]; cbn;
    [ left; auto | right; auto ].
Qed.

(** The client a fetch leaves behind. *)
Lemma GetNodeInfo_client (c : APIClient) (send : Request -> Response) :
  snd (GetNodeInfo c send) =
  let res := send {| qPath := "/api/public/airgo/node/getNodeInfo";
                     qID := cNodeID c; qIfNoneMatch := eTag c "node" |} in
  if StatusCode res =? 304 then c else updateETag c res "node".
Proof.
  unfold GetNodeInfo. cbv zeta.
  destruct (StatusCode _ =? 304); [ reflexivity | ].
  destruct (Unmarshal_NodeInfoResponse _); [ reflexivity | ].
  destruct (ParseAirGoNodeInfo _ _) as [i [e | ]]; reflexivity.
Qed.

Lemma GetUserList_client (c : APIClient) (send : Request -> Response) :
  snd (GetUserList c send) =
  let res := send {| qPath := "/api/public/airgo/user/getUserlist";
                     qID := cNodeID c; qIfNoneMatch := eTag c "userlist" |} in
  match TransportErr res with
  | Some _ => c
  | None => if StatusCode res =? 304 then c else updateETag c res "userlist"
  end.
Proof.
  unfold GetUserList. cbv zeta.
  destruct (TransportErr _); [ reflexivity | ].
  destruct (StatusCode _ =? 304); [ reflexivity | ].
  destruct (Unmarshal_UserResponses _); reflexivity.
Qed.

(** C7: [updateETag] is a no-op on an empty token or on the stored one, and
    otherwise stores the token under its key and touches nothing else; a
    fetch answered with status 304 returns the not-modified error and the
    client unchanged; whatever the answer, a fetch leaves the table as it
    was or stores one non-empty, different token under its own key. *)
Theorem eTags_only_fresh_tokens (c : APIClient) :
  (forall res key,
     Etag res = "" \/ Etag res = eTag c key -> updateETag c res key = c) /\
  (forall res key,
     updateETag c res key <> c ->
     Etag res <> "" /\ Etag res <> eTag c key /\
     eTags (updateETag c res key) = <[key := Etag res]> (eTags c)) /\
  (forall send,
     StatusCode (send {| qPath := "/api/public/airgo/node/getNodeInfo";
                         qID := cNodeID c;
                         qIfNoneMatch := eTag c "node" |}) = 304 ->
     GetNodeInfo c send = ((None, Some NodeNotModified), c)) /\
  (forall send,
     let res := send {| qPath := "/api/public/airgo/user/getUserlist";
                        qID := cNodeID c;
                        qIfNoneMatch := eTag c "userlist" |} in
     StatusCode res = 304 ->
     snd (GetUserList c send) = c /\
     (TransportErr res = None ->
      GetUserList c send = ((None, Some UserNotModified), c))) /\
  (forall send,
     let c' := snd (GetNodeInfo c send) in
     c' = c \/
     exists token, token <> "" /\ token <> eTag c "node" /\
       c' = set_eTags c (<["node" := token]> (eTags c))) /\
  (forall send,
     let c' := snd (GetUserList c send) in
     c' = c \/
     exists token, token <> "" /\ token <> eTag c "userlist" /\
       c' = set_eTags c (<["userlist" := token]> (eTags c))).
Proof.
  repeat apply conj.
  - intros res key Hno.
    destruct (updateETag_cases c res key) as [[_ Hu] | (He & Hs & _)];
      [ exact Hu | tauto ].
  - intros res key Hch.
    destruct (updateETag_cases c res key) as [[_ Hu] | (He & Hs & Hu)];
      [ contradiction | ].
    rewrite Hu. auto.
  - intros send Hst. unfold GetNodeInfo. rewrite Hst. reflexivity.
  - intros send res Hst. subst res. unfold GetUserList.
    destruct (TransportErr _); [ split; [ reflexivity | discriminate ] | ].
    rewrite Hst. split; reflexivity.
  - intros send. cbv zeta. rewrite GetNodeInfo_client. cbv zeta.
    destruct (StatusCode _ =? 304); [ left; reflexivity | ].
    match goal with |- context [updateETag c ?res "node"] =>
      destruct (updateETag_cases c res "node") as [[_ Hu] | (He & Hs & Hu)];
      [ left; exact Hu | right; exists (Etag res); auto ]
    end.
  - intros send. cbv zeta. rewrite GetUserList_client. cbv zeta.
    destruct (TransportErr _); [ left; reflexivity | ].
    destruct (StatusCode _ =? 304); [ left; reflexivity | ].
    match goal with |- context [updateETag c ?res "userlist"] =>
      destruct (updateETag_cases c res "userlist") as [[_ Hu] | (He & Hs & Hu)];
      [ left; exact Hu | right; exists (Etag res); auto ]
    end.
Qed.

(** The loop of [GetUserList] fills the slots from left to right. *)
Lemma fill_userInfo_app (c : APIClient) (rest : list UserResponse) :
  forall done todo : list UserInfo,
    length todo = length rest ->
    fill_userInfo c (length done) rest (done ++ todo) =
    done ++ (userInfo_of c <$> rest).
Proof.
  induction rest as [ | v rest IH]; intros done todo Hlen.
  - destruct todo; [ reflexivity | discriminate Hlen ].
  - destruct todo as [ | u todo]; [ discriminate Hlen | ].
    cbn [fill_userInfo].
    replace (<[length done := userInfo_of c v]> (done ++ u :: todo))
      with ((done ++ [userInfo_of c v]) ++ todo).
    + replace (S (length done)) with (length (done ++ [userInfo_of c v])).
      * rewrite IH; [ | cbn in Hlen; lia ].
        rewrite <- app_assoc. reflexivity.
      * rewrite length_app. cbn. lia.
    + rewrite <- app_assoc. cbn.
      rewrite <- (Nat.add_0_r (length done)).
      rewrite insert_app_r. reflexivity.
Qed.

Lemma translate_users_fmap (c : APIClient) (l : list UserResponse) :
  translate_users c l = userInfo_of c <$> l.
Proof.
  unfold translate_users.
  apply (fill_userInfo_app c l [] (replicate (length l) zero_UserInfo)).
  apply length_replicate.
Qed.

Lemma int_of_int64 (z : Z) : GoInt.is_int64 z -> GoInt.int z = z.
Proof.
  unfold GoInt.is_int64, GoInt.int, GoInt.wrap_signed. intros Hz.
  change (2 ^ 64) with 18446744073709551616 in *.
  change (2 ^ (64 - 1)) with 9223372036854775808 in *.
  change (2 ^ 63) with 9223372036854775808 in *.
  destruct (Z_lt_le_dec z 0) as [Hneg | Hpos].
  - replace (z mod 18446744073709551616) with (z + 18446744073709551616).
    + destruct (Z.ltb_spec (z + 18446744073709551616) 9223372036854775808); lia.
    + apply Z.mod_unique with (q := -1); lia.
  - rewrite Z.mod_small by lia.
    destruct (Z.ltb_spec z 9223372036854775808); lia.
Qed.

(** The speed limit of a translated user, written out. *)
Lemma userInfo_of_SpeedLimit (c : APIClient) (v : UserResponse) :
  uSpeedLimit (userInfo_of c v) =
  to_uint64 (Float64.div
    (Float64.mul (if 0 <? uNodeSpeedLimit v
                  then Float64.of_Z (uNodeSpeedLimit v) else cSpeedLimit c)
                 (Float64.of_Z 1000000))
    (Float64.of_Z 8)).
Proof.
  unfold userInfo_of, calculateSpeedLimit. cbn [uSpeedLimit].
  destruct (0 <? uNodeSpeedLimit v); reflexivity.
Qed.

Lemma quot_mbps_bytes (z : Z) : Z.quot (z * 1000000) 8 = z * 125000.
Proof.
  replace (z * 1000000) with (z * 125000 * 8) by ring.
  apply Z.quot_mul. lia.
Qed.

(** C8: the user list is translated slot by slot: the result has the
    length of the decoded list and its i-th record comes from the i-th
    descriptor, with id, UUID, user name, password and connection limit
    copied and the speed limit resolved by the rule of the node mapping:
    [uint64((L * 1000000) / 8)] on float64 for a per-user override
    [L > 0] and the same on the session default otherwise, which is the
    speed limit the node mapping gives for that override, and on a whole
    number of megabits whose product with 1000000 has at most 53 bits the
    quotient of [L * 1000000] by 8; a successful [GetUserList] returns
    this list. *)
Theorem user_list_translation (c : APIClient) (l : list UserResponse) :
  translate_users c l = userInfo_of c <$> l /\
  length (translate_users c l) = length l /\
  (forall (i : nat) (v : UserResponse),
     l !! i = Some v ->
     GoInt.is_int64 (uID v) -> GoInt.is_int64 (uNodeConnector v) ->
     exists u, translate_users c l !! i = Some u /\
       UID u = uID v /\ UUID u = uUUID v /\ Email u = uUserName v /\
       Passwd u = uPasswd v /\ DeviceLimit u = uNodeConnector v /\
       uSpeedLimit u =
       calculateSpeedLimit (uNodeSpeedLimit v) (cSpeedLimit c) /\
       uSpeedLimit u =
       to_uint64 (Float64.div
         (Float64.mul (if 0 <? uNodeSpeedLimit v
                       then Float64.of_Z (uNodeSpeedLimit v)
                       else cSpeedLimit c)
                      (Float64.of_Z 1000000))
         (Float64.of_Z 8)) /\
       (0 < uNodeSpeedLimit v -> uNodeSpeedLimit v * 1000000 < 2 ^ 53 ->
        uSpeedLimit u = Z.quot (uNodeSpeedLimit v * 1000000) 8) /\
       (forall D : Z,
          uNodeSpeedLimit v <= 0 -> cSpeedLimit c = Float64.of_Z D ->
          0 < D -> D * 1000000 < 2 ^ 53 ->
          uSpeedLimit u = Z.quot (D * 1000000) 8) /\
       (forall n : NodeInfoResponse,
          recognized (nProtocol n) = true ->
          nNodeSpeedLimit n = Float64.of_Z (uNodeSpeedLimit v) ->
          SpeedLimit (fst (ParseAirGoNodeInfo c n)) = uSpeedLimit u)) /\
  (forall send,
     let res := send {| qPath := "/api/public/airgo/user/getUserlist";
                        qID := cNodeID c;
                        qIfNoneMatch := eTag c "userlist" |} in
     TransportErr res = None -> StatusCode res <> 304 ->
     Unmarshal_UserResponses (Body res) = inr l ->
     fst (GetUserList c send) = (Some (translate_users c l), None)).
Proof.
  pose proof (translate_users_fmap c l) as Hmap.
  split; [ exact Hmap | ]. split; [ | split ].
  - rewrite Hmap. apply length_fmap.
  - intros i v Hi Hid Hconn. exists (userInfo_of c v).
    rewrite Hmap, list_lookup_fmap, Hi.
    pose proof (userInfo_of_SpeedLimit c v) as Hspeed.
    split; [ reflexivity | ].
    cbn [userInfo_of UID UUID Email Passwd DeviceLimit].
    rewrite (int_of_int64 _ Hid), (int_of_int64 _ Hconn).
    do 5 (split; [ reflexivity | ]).
    split; [ reflexivity | ]. split; [ exact Hspeed | ].
    split; [ | split ].
    + intros Hpos Hfit. rewrite Hspeed, quot_mbps_bytes.
      destruct (Z.ltb_spec 0 (uNodeSpeedLimit v)) as [_ | Hle]; [ | lia ].
      apply Float64Facts.whole_mbps_to_bytes; assumption.
    + intros D Hle HD Hpos Hfit. rewrite Hspeed, quot_mbps_bytes.
      destruct (Z.ltb_spec 0 (uNodeSpeedLimit v)) as [Hlt | _]; [ lia | ].
      rewrite HD. apply Float64Facts.whole_mbps_to_bytes; assumption.
    + intros n Hrec Hn. rewrite Hspeed, (Parse_SpeedLimit c n Hrec), Hn.
      rewrite Float64Facts.gt0_of_Z.
      destruct (0 <? uNodeSpeedLimit v); reflexivity.
  - intros send res Herr Hst Hdec. subst res. unfold GetUserList.
    rewrite Herr.
    destruct (Z.eqb_spec (StatusCode (send {|
        qPath := "/api/public/airgo/user/getUserlist";
        qID := cNodeID c; qIfNoneMatch := eTag c "userlist" |})) 304)
      as [He | _]; [ contradiction | ].
    cbv zeta. rewrite Hdec. cbn.
    rewrite !translate_users_fmap.
    assert (Hsame : forall c1 c2 : APIClient,
              cSpeedLimit c1 = cSpeedLimit c2 ->
              userInfo_of c1 <$> l = userInfo_of c2 <$> l).
    { intros c1 c2 Heq. unfold userInfo_of. rewrite Heq. reflexivity. }
    rewrite (Hsame _ c); [ reflexivity | ].
    unfold updateETag.
    destruct (negb _ && negb _); reflexivity.
Qed.

(** The table built by the loop of [ReportNodeOnlineUsers], key by key. *)
Lemma foldl_add_online (l : list OnlineUser) :
  forall (m : gmap Z (list string)) (uid : Z),
    foldl add_online m l !! uid =
    match oIP <$> filter (fun v => oUID v = uid) l with
    | [] => m !! uid
    | ips => Some (default [] (m !! uid) ++ ips)
    end.
Proof.
  induction l as [ | v l IH]; intros m uid; [ reflexivity | ].
  cbn [foldl]. rewrite IH. unfold add_online.
  rewrite filter_cons. destruct (decide (oUID v = uid)) as [Heq | Hne].
  - rewrite Heq, lookup_insert_eq. cbn.
    destruct (oIP <$> filter (fun v0 => oUID v0 = uid) l) as [ | ip ips].
    + reflexivity.
    + rewrite <- app_assoc. reflexivity.
  - rewrite lookup_insert_ne by exact Hne. reflexivity.
Qed.

(** C9: [ReportNodeOnlineUsers] posts the node id with a table that maps
    each observed user id to the IPs observed for it, in observation
    order and with repetitions kept; ids never observed have no entry. *)
Theorem online_users_grouping (c : APIClient)
  (post : string -> OnlineUserRequest -> Response) (l : list OnlineUser) :
  ReportNodeOnlineUsers c post l =
  postRequest c post "/api/public/airgo/user/AGReportNodeOnlineUsers"
    (online_payload c l) /\
  rNodeID (online_payload c l) = cNodeID c /\
  (forall uid : Z,
     rUserNodeMap (online_payload c l) !! uid =
     match oIP <$> filter (fun v => oUID v = uid) l with
     | [] => None
     | ips => Some ips
     end) /\
  rUserNodeMap (online_payload c
    [ {| oUID := 1; oIP := "1.1.1.1" |}; {| oUID := 1; oIP := "1.1.1.1" |};
      {| oUID := 2; oIP := "2.2.2.2" |} ]) =
  <[1 := ["1.1.1.1"; "1.1.1.1"]]> (<[2 := ["2.2.2.2"]]> ∅).
Proof.
  split; [ reflexivity | ]. split; [ reflexivity | ]. split.
  - intros uid. unfold online_payload. cbn [rUserNodeMap].
    rewrite foldl_add_online, lookup_empty. reflexivity.
  - apply map_eq. intros uid. unfold online_payload. cbn [rUserNodeMap].
    rewrite foldl_add_online, lookup_empty.
    destruct (decide (uid = 1)) as [-> | H1];
      [ rewrite lookup_insert_eq; reflexivity | ].
    rewrite lookup_insert_ne by congruence.
    destruct (decide (uid = 2)) as [-> | H2];
      [ rewrite lookup_insert_eq; reflexivity | ].
    rewrite lookup_insert_ne by congruence. rewrite lookup_empty.
    rewrite !filter_cons, filter_nil. cbn.
    repeat (destruct (decide _); [ congruence | ]).
    reflexivity.
Qed.

(** The byte rate of a float64 number of megabits per second. *)
Lemma quot_mbps (z : Z) : Z.quot (z * 1000000) 8 = z * 125000.
Proof.
  replace (z * 1000000) with (z * 125000 * 8) by ring.
  apply Z.quot_mul. lia.
Qed.

(** C6: the speed limit is [uint64((L * 1000000) / 8)], computed on
    float64, for an override [L > 0] and the same on the session default
    otherwise, in [calculateSpeedLimit] (the per-user mapping) as in the
    node mapping, which agree on every integer override; on a whole number
    of megabits whose product with 1000000 has at most 53 bits the float64
    computation is exact and gives the quotient of [L * 1000000] by 8
    truncated toward zero: 100 gives 12500000, and 0 with default 50 gives
    6250000. *)
Theorem speed_limit_resolution (c : APIClient) :
  (forall (L : Z) (D : float64),
     calculateSpeedLimit L D =
     to_uint64 (Float64.div
       (Float64.mul (if 0 <? L then Float64.of_Z L else D)
                    (Float64.of_Z 1000000))
       (Float64.of_Z 8))) /\
  (forall n : NodeInfoResponse,
     recognized (nProtocol n) = true ->
     SpeedLimit (fst (ParseAirGoNodeInfo c n)) =
     to_uint64 (Float64.div
       (Float64.mul (if Float64.gt0 (nNodeSpeedLimit n)
                     then nNodeSpeedLimit n else cSpeedLimit c)
                    (Float64.of_Z 1000000))
       (Float64.of_Z 8))) /\
  (forall (n : NodeInfoResponse) (L : Z),
     recognized (nProtocol n) = true ->
     nNodeSpeedLimit n = Float64.of_Z L ->
     SpeedLimit (fst (ParseAirGoNodeInfo c n)) =
     calculateSpeedLimit L (cSpeedLimit c)) /\
  (forall (L : Z) (D : float64),
     0 < L -> L * 1000000 < 2 ^ 53 ->
     calculateSpeedLimit L D = Z.quot (L * 1000000) 8) /\
  (forall L D : Z,
     L <= 0 -> 0 < D -> D * 1000000 < 2 ^ 53 ->
     calculateSpeedLimit L (Float64.of_Z D) = Z.quot (D * 1000000) 8) /\
  (forall D : float64, calculateSpeedLimit 100 D = 12500000) /\
  calculateSpeedLimit 0 (Float64.of_Z 50) = 6250000.
Proof.
  assert (Hcalc : forall (L : Z) (D : float64),
     calculateSpeedLimit L D =
     to_uint64 (Float64.div
       (Float64.mul (if 0 <? L then Float64.of_Z L else D)
                    (Float64.of_Z 1000000))
       (Float64.of_Z 8))).
  { intros L D. unfold calculateSpeedLimit. destruct (0 <? L); reflexivity. }
  assert (Hnode : forall n : NodeInfoResponse,
     recognized (nProtocol n) = true ->
     SpeedLimit (fst (ParseAirGoNodeInfo c n)) =
     to_uint64 (Float64.div
       (Float64.mul (if Float64.gt0 (nNodeSpeedLimit n)
                     then nNodeSpeedLimit n else cSpeedLimit c)
                    (Float64.of_Z 1000000))
       (Float64.of_Z 8))).
  { intros n Hr. rewrite (Parse_SpeedLimit c n Hr).
    destruct (Float64.gt0 (nNodeSpeedLimit n)); reflexivity. }
  assert (Hexact : forall (L : Z) (D : float64),
     0 < L -> L * 1000000 < 2 ^ 53 ->
     calculateSpeedLimit L D = Z.quot (L * 1000000) 8).
  { intros L D Hpos Hfit. rewrite Hcalc, quot_mbps.
    destruct (Z.ltb_spec 0 L) as [_ | Hle]; [ | lia ].
    apply Float64Facts.whole_mbps_to_bytes; assumption. }
  assert (Hdefault : forall L D : Z,
     L <= 0 -> 0 < D -> D * 1000000 < 2 ^ 53 ->
     calculateSpeedLimit L (Float64.of_Z D) = Z.quot (D * 1000000) 8).
  { intros L D Hle Hpos Hfit. rewrite Hcalc, quot_mbps.
    destruct (Z.ltb_spec 0 L) as [Hlt | _]; [ lia | ].
    apply Float64Facts.whole_mbps_to_bytes; assumption. }
  split; [ exact Hcalc | ]. split; [ exact Hnode | ].
  split; [ | split; [ exact Hexact | split; [ exact Hdefault | split ] ] ].
  - intros n L Hr HL. rewrite (Hnode n Hr), Hcalc, HL.
    rewrite Float64Facts.gt0_of_Z. reflexivity.
  - intros D. rewrite (Hexact 100 D) by lia. reflexivity.
  - rewrite (Hdefault 0 50) by lia. reflexivity.
Qed.

End Properties.

(** ** Further properties of the cache and the fetches *)

Section CacheProperties.

Context `{Externals}.

Lemma eTag_set_eTags (c : APIClient) (key token k : string) :
  eTag (set_eTags c (<[key := token]> (eTags c))) k =
  if String.eqb k key then token else eTag c k.
Proof.
  unfold eTag. cbn [set_eTags eTags].
  destruct (String.eqb_spec k key) as [-> | Hne].
  - rewrite lookup_insert_eq. reflexivity.
  - rewrite lookup_insert_ne by congruence. reflexivity.
Qed.

Lemma eTag_updateETag (c : APIClient) (res : Response) (key k : string) :
  eTag (updateETag c res key) k =
  if String.eqb k key && negb (String.eqb (Etag res) "")
  then Etag res else eTag c k.
Proof.
  destruct (updateETag_cases c res key) as [[Hno Hu] | (He & Hs & Hu)];
    rewrite Hu.
  - destruct (String.eqb_spec k key) as [-> | Hne]; [ | reflexivity ].
    destruct (String.eqb_spec (Etag res) "") as [He | He]; [ reflexivity | ].
    cbn. destruct Hno as [Hno | Hno]; [ contradiction | congruence ].
  - rewrite eTag_set_eTags.
    destruct (String.eqb_spec k key) as [-> | Hne]; [ | reflexivity ].
    destruct (String.eqb_spec (Etag res) "") as [He' | He'];
      [ contradiction | reflexivity ].
Qed.

Lemma same_config_refl (c : APIClient) : same_config c c.
Proof. repeat split. Qed.

Lemma same_config_trans (c1 c2 c3 : APIClient) :
  same_config c1 c2 -> same_config c2 c3 -> same_config c1 c3.
Proof.
  unfold same_config. intros H12 H23.
  destruct H12 as (? & ? & ? & ? & ? & ? & ? & ?).
  destruct H23 as (? & ? & ? & ? & ? & ? & ? & ?).
  repeat split; congruence.
Qed.

Lemma same_config_updateETag (c : APIClient) (res : Response) (key : string) :
  same_config c (updateETag c res key).
Proof.
  destruct (updateETag_cases c res key) as [[_ Hu] | (_ & _ & Hu)];
    rewrite Hu; repeat split.
Qed.

(** X1: after [updateETag], a lookup under the updated key gives the
    response's token when that is not empty and the stored one otherwise; a
    lookup under any other key gives what was stored; the configuration
    fields are untouched. *)
Theorem updateETag_lookup (c : APIClient) (res : Response) (key k : string) :
  eTag (updateETag c res key) k =
  (if String.eqb k key && negb (String.eqb (Etag res) "")
   then Etag res else eTag c k) /\
  same_config c (updateETag c res key).
Proof.
  split; [ apply eTag_updateETag | apply same_config_updateETag ].
Qed.

Lemma updateETag_twice (c : APIClient) (res : Response) (key : string) :
  updateETag (updateETag c res key) res key = updateETag c res key.
Proof.
  destruct (updateETag_cases (updateETag c res key) res key)
    as [[_ Hu] | (He & Hs & _)]; [ exact Hu | ].
  exfalso. apply Hs. rewrite eTag_updateETag, String.eqb_refl.
  destruct (String.eqb_spec (Etag res) "") as [He' | _];
    [ contradiction | reflexivity ].
Qed.

(** X2: applying the same response twice is the same as applying it once,
    and after two responses with non-empty tokens the key holds the token
    of the later one. *)
Theorem updateETag_last_wins (c : APIClient) (r1 r2 : Response) (key : string) :
  updateETag (updateETag c r1 key) r1 key = updateETag c r1 key /\
  (Etag r2 <> "" ->
   eTag (updateETag (updateETag c r1 key) r2 key) key = Etag r2).
Proof.
  split; [ apply updateETag_twice | ].
  intros He. rewrite eTag_updateETag, String.eqb_refl.
  destruct (String.eqb_spec (Etag r2) "") as [He' | _];
    [ contradiction | reflexivity ].
Qed.

Lemma eTag_GetNodeInfo (c : APIClient) (send : Request -> Response) (k : string) :
  eTag (snd (GetNodeInfo c send)) k =
  let res := send (node_request c) in
  if String.eqb k "node" && negb (StatusCode res =? 304)
     && negb (String.eqb (Etag res) "")
  then Etag res else eTag c k.
Proof.
  rewrite GetNodeInfo_client. cbv zeta. fold (node_request c).
  destruct (StatusCode (send (node_request c)) =? 304); cbn [negb].
  - rewrite andb_false_r. reflexivity.
  - rewrite eTag_updateETag, andb_true_r. reflexivity.
Qed.

Lemma eTag_GetUserList (c : APIClient) (send : Request -> Response) (k : string) :
  eTag (snd (GetUserList c send)) k =
  let res := send (userlist_request c) in
  if String.eqb k "userlist"
     && match TransportErr res with Some _ => false | None => true end
     && negb (StatusCode res =? 304)
     && negb (String.eqb (Etag res) "")
  then Etag res else eTag c k.
Proof.
  rewrite GetUserList_client. cbv zeta. fold (userlist_request c).
  destruct (TransportErr (send (userlist_request c))).
  - rewrite andb_false_r. reflexivity.
  - destruct (StatusCode (send (userlist_request c)) =? 304); cbn [negb].
    + rewrite andb_false_r. reflexivity.
    + rewrite eTag_updateETag, !andb_true_r. reflexivity.
Qed.

(** X3: the token a fetch leaves under its own key is the response's
    [Etag] whenever the status is not 304 and the [Etag] is not empty (for
    the user list also: no transport error), whatever the body, decodable
    or not; in every other case, and under every other key, the stored
    token stays. *)
Theorem token_after_fetch (c : APIClient) (send : Request -> Response)
  (k : string) :
  eTag (snd (GetNodeInfo c send)) k =
  (let res := send (node_request c) in
   if String.eqb k "node" && negb (StatusCode res =? 304)
      && negb (String.eqb (Etag res) "")
   then Etag res else eTag c k) /\
  eTag (snd (GetUserList c send)) k =
  (let res := send (userlist_request c) in
   if String.eqb k "userlist"
      && match TransportErr res with Some _ => false | None => true end
      && negb (StatusCode res =? 304)
      && negb (String.eqb (Etag res) "")
   then Etag res else eTag c k).
Proof.
  split; [ apply eTag_GetNodeInfo | apply eTag_GetUserList ].
Qed.

Lemma table_ok_updateETag (c : APIClient) (res : Response) (key : string) :
  key = "node" \/ key = "userlist" ->
  table_ok c -> table_ok (updateETag c res key).
Proof.
  intros Hkey Hok.
  destruct (updateETag_cases c res key) as [[_ Hu] | (He & _ & Hu)];
    rewrite Hu; [ exact Hok | ].
  intros k token. cbn [set_eTags eTags].
  destruct (decide (key = k)) as [<- | Hne].
  - rewrite lookup_insert_eq. intros [= <-]. auto.
  - rewrite lookup_insert_ne by exact Hne. apply Hok.
Qed.

Lemma after_fetch_ok (c : APIClient) (f : fetch) :
  table_ok c -> table_ok (after_fetch c f) /\ same_config c (after_fetch c f).
Proof.
  intros Hok. destruct f as [send | send]; cbn [after_fetch].
  - rewrite GetNodeInfo_client. cbv zeta.
    destruct (StatusCode _ =? 304);
      [ split; [ exact Hok | apply same_config_refl ] | ].
    split; [ apply table_ok_updateETag; auto | apply same_config_updateETag ].
  - rewrite GetUserList_client. cbv zeta.
    destruct (TransportErr _);
      [ split; [ exact Hok | apply same_config_refl ] | ].
    destruct (StatusCode _ =? 304);
      [ split; [ exact Hok | apply same_config_refl ] | ].
    split; [ apply table_ok_updateETag; auto | apply same_config_updateETag ].
Qed.

Lemma after_fetches_ok (fs : list fetch) :
  forall c : APIClient,
    table_ok c ->
    table_ok (after_fetches c fs) /\ same_config c (after_fetches c fs).
Proof.
  unfold after_fetches.
  induction fs as [ | f fs IH]; intros c Hok; cbn [foldl].
  - split; [ exact Hok | apply same_config_refl ].
  - destruct (after_fetch_ok c f Hok) as [Hok1 Hsame1].
    destruct (IH _ Hok1) as [Hok2 Hsame2].
    split; [ exact Hok2 | ].
    exact (same_config_trans _ _ _ Hsame1 Hsame2).
Qed.

(** X4: a client made by [New] starts with an empty table, and whatever
    the panel answers over any sequence of fetches, its table only ever
    holds non-empty tokens under the keys "node" and "userlist", and its
    configuration fields stay those of the configuration object. *)
Theorem polling_invariant `{System} (apiConfig : Config) (c : APIClient)
  (rules : list DetectRule) (fs : list fetch) :
  New apiConfig = Returned (c, rules) ->
  eTags c = ∅ /\
  table_ok (after_fetches c fs) /\
  cAPIHost (after_fetches c fs) = gAPIHost apiConfig /\
  cNodeID (after_fetches c fs) = gNodeID apiConfig /\
  cKey (after_fetches c fs) = gKey apiConfig /\
  cNodeType (after_fetches c fs) = gNodeType apiConfig /\
  cSpeedLimit (after_fetches c fs) = gSpeedLimit apiConfig /\
  cDeviceLimit (after_fetches c fs) = gDeviceLimit apiConfig.
Proof.
  unfold New. intros Hnew.
  destruct (readLocalRuleList (gRuleListPath apiConfig)) as [l | msg | msg];
    try discriminate Hnew.
  injection Hnew as Hc Hr. subst c rules.
  split; [ reflexivity | ].
  match goal with |- context [after_fetches ?c0 fs] =>
    assert (Hok : table_ok c0) by
      (intros key token Hl; cbn in Hl; rewrite lookup_empty in Hl;
       discriminate Hl);
    destruct (after_fetches_ok fs c0 Hok)
      as (Hok' & Hsame);
    destruct Hsame as (Hh & Hi & Hk & Ht & _ & _ & Hs & Hd)
  end.
  split; [ exact Hok' | ].
  rewrite Hh, Hi, Hk, Ht, Hs, Hd. repeat split.
Qed.

(** X5: against a panel whose resource does not change, with a non-empty
    validator, one fetch leaves that validator under the resource's key,
    and the fetch after it is answered 304: it returns the not-modified
    error and the client as it was. *)
Theorem steady_panel_second_fetch (c : APIClient) (etag body : string) :
  etag <> "" ->
  (let c1 := snd (GetNodeInfo c (steady_panel etag body)) in
   eTag c1 "node" = etag /\
   GetNodeInfo c1 (steady_panel etag body) = ((None, Some NodeNotModified), c1)) /\
  (let c1 := snd (GetUserList c (steady_panel etag body)) in
   eTag c1 "userlist" = etag /\
   GetUserList c1 (steady_panel etag body) = ((None, Some UserNotModified), c1)).
Proof.
  intros He.
  assert (Hne : String.eqb etag "" = false) by (apply String.eqb_neq; exact He).
  assert (Hhit : forall q, qIfNoneMatch q = etag ->
            steady_panel etag body q =
            {| StatusCode := 304; Etag := etag; Body := "";
               TransportErr := None |}).
  { intros q Hq. unfold steady_panel. rewrite Hq, String.eqb_refl. reflexivity. }
  split; cbv zeta.
  - assert (Htok : eTag (snd (GetNodeInfo c (steady_panel etag body))) "node"
                   = etag).
    { rewrite eTag_GetNodeInfo. cbv zeta. unfold steady_panel at 1 2 3.
      cbn [node_request qIfNoneMatch].
      destruct (String.eqb_spec (eTag c "node") etag) as [Heq | Hdiff];
        cbn [StatusCode Etag]; [ exact Heq | ].
      rewrite Hne. reflexivity. }
    split; [ exact Htok | ].
    unfold GetNodeInfo at 1.
    rewrite Hhit by (cbn [qIfNoneMatch]; exact Htok). reflexivity.
  - assert (Htok : eTag (snd (GetUserList c (steady_panel etag body))) "userlist"
                   = etag).
    { rewrite eTag_GetUserList. cbv zeta. unfold steady_panel at 1 2 3 4.
      cbn [userlist_request qIfNoneMatch].
      destruct (String.eqb_spec (eTag c "userlist") etag) as [Heq | Hdiff];
        cbn [StatusCode Etag TransportErr]; [ exact Heq | ].
      rewrite Hne. reflexivity. }
    split; [ exact Htok | ].
    unfold GetUserList at 1.
    rewrite Hhit by (cbn [qIfNoneMatch]; exact Htok). reflexivity.
Qed.

End CacheProperties.

(** ** Further properties of the node mapping and of the fetch results *)

Section MappingProperties.

Context `{Externals}.

(** [ParseAirGoNodeInfo] reads three fields of the client. *)
Lemma Parse_same_client (c1 c2 : APIClient) (n : NodeInfoResponse) :
  cNodeType c1 = cNodeType c2 -> cNodeID c1 = cNodeID c2 ->
  cSpeedLimit c1 = cSpeedLimit c2 ->
  ParseAirGoNodeInfo c1 n = ParseAirGoNodeInfo c2 n.
Proof.
  intros Ht Hi Hs. unfold ParseAirGoNodeInfo. rewrite Ht, Hi, Hs. reflexivity.
Qed.

(** X6: [GetNodeInfo] ends in exactly one of three ways: on status 304
    the not-modified error; otherwise, on a body that does not decode, the
    unmarshal error; otherwise the configuration that [ParseAirGoNodeInfo]
    gives for the decoded descriptor, which does not depend on the token
    table. A configuration is returned exactly when the error is nil. *)
Theorem GetNodeInfo_outcome (c : APIClient) (send : Request -> Response) :
  let res := send (node_request c) in
  let r := fst (GetNodeInfo c send) in
  (StatusCode res = 304 -> r = (None, Some NodeNotModified)) /\
  (StatusCode res <> 304 ->
   forall e, Unmarshal_NodeInfoResponse (Body res) = inl e ->
             r = (None, Some (UnmarshalNodeInfoFailed e))) /\
  (StatusCode res <> 304 ->
   forall n, Unmarshal_NodeInfoResponse (Body res) = inr n ->
             r = (Some (fst (ParseAirGoNodeInfo c n)), None)) /\
  (is_Some (fst r) <-> snd r = None).
Proof.
  cbv zeta. unfold GetNodeInfo. fold (node_request c).
  set (res := send (node_request c)).
  destruct (Z.eqb_spec (StatusCode res) 304) as [Hst | Hst].
  - repeat split; try reflexivity; try contradiction.
    + intros [x Hx]. discriminate Hx.
    + discriminate.
  - cbv zeta.
    destruct (Unmarshal_NodeInfoResponse (Body res)) as [e | n] eqn:Hdec.
    + repeat split; try contradiction.
      * intros _ e' [= <-]. reflexivity.
      * intros _ n' Hn. discriminate Hn.
      * intros [x Hx]. discriminate Hx.
      * discriminate.
    + pose proof (Parse_error (updateETag c res "node") n) as Herr.
      assert (Hsame : ParseAirGoNodeInfo (updateETag c res "node") n =
                      ParseAirGoNodeInfo c n).
      { destruct (same_config_updateETag c res "node")
          as (_ & Hi & _ & Ht & _ & _ & Hs & _).
        apply Parse_same_client; assumption. }
      destruct (ParseAirGoNodeInfo (updateETag c res "node") n)
        as [i [e | ]] eqn:Hp; cbn in Herr; [ discriminate Herr | ].
      cbn [fst snd].
      repeat split; try contradiction.
      * intros _ e' He'. discriminate He'.
      * intros _ n' [= <-]. rewrite <- Hsame. reflexivity.
      * intros _. eexists. reflexivity.
Qed.

(** X7: [GetUserList] checks in this order: a transport error gives the
    get-user-list error and leaves the client alone whatever the status
    and [Etag] of the response; then status 304 gives the not-modified
    error; then a body that does not decode gives the unmarshal error,
    after the token was stored; otherwise the translated list. A list is
    returned exactly when the error is nil. *)
Theorem GetUserList_outcome (c : APIClient) (send : Request -> Response) :
  let res := send (userlist_request c) in
  let r := fst (GetUserList c send) in
  (forall e, TransportErr res = Some e ->
     GetUserList c send = ((None, Some (GetUserListFailed e)), c)) /\
  (TransportErr res = None -> StatusCode res = 304 ->
     r = (None, Some UserNotModified)) /\
  (TransportErr res = None -> StatusCode res <> 304 ->
   forall e, Unmarshal_UserResponses (Body res) = inl e ->
     GetUserList c send =
     ((None, Some (UnmarshalUserListFailed e)), updateETag c res "userlist")) /\
  (TransportErr res = None -> StatusCode res <> 304 ->
   forall l, Unmarshal_UserResponses (Body res) = inr l ->
     r = (Some (userInfo_of c <$> l), None)) /\
  (is_Some (fst r) <-> snd r = None).
Proof.
  cbv zeta. unfold GetUserList. fold (userlist_request c).
  set (res := send (userlist_request c)).
  destruct (TransportErr res) as [te | ].
  { repeat split; try discriminate.
    - intros e [= <-]. reflexivity.
    - intros [x Hx]. discriminate Hx. }
  destruct (Z.eqb_spec (StatusCode res) 304) as [Hst | Hst].
  { repeat split; try discriminate; try contradiction.
    intros [x Hx]. discriminate Hx. }
  cbv zeta.
  destruct (Unmarshal_UserResponses (Body res)) as [e | l] eqn:Hdec.
  - repeat split; try discriminate; try contradiction.
    + intros _ _ e' [= <-]. reflexivity.
    + intros [x Hx]. discriminate Hx.
  - cbn [fst snd]. repeat split; try discriminate; try contradiction.
    + intros _ _ l' [= <-].
      rewrite translate_users_fmap. unfold userInfo_of.
      destruct (same_config_updateETag c res "userlist")
        as (_ & _ & _ & _ & _ & _ & Hs & _).
      rewrite Hs. reflexivity.
    + intros _. eexists. reflexivity.
Qed.

(** X8: the node mapping reads only the node type, the node id and the
    default speed limit of the client: two clients that agree on these
    give the same result, whatever their [EnableVless] and [VlessFlow]
    settings, device limit, key, host and token table. *)
Theorem ParseAirGoNodeInfo_client_fields (c1 c2 : APIClient)
  (n : NodeInfoResponse) :
  cNodeType c1 = cNodeType c2 -> cNodeID c1 = cNodeID c2 ->
  cSpeedLimit c1 = cSpeedLimit c2 ->
  ParseAirGoNodeInfo c1 n = ParseAirGoNodeInfo c2 n /\
  EnableVless (fst (ParseAirGoNodeInfo c1 n)) = is_vless (nProtocol n) /\
  VlessFlow (fst (ParseAirGoNodeInfo c1 n)) =
  (if is_vless (nProtocol n) then nVlessFlow n else "").
Proof.
  intros Ht Hi Hs. split; [ apply Parse_same_client; assumption | ].
  destruct (class_cases (nProtocol n)) as [Hp | [Hp | [Hp | Hp]]].
  - destruct (Parse_vless c1 n Hp) as (Hv & Hf & _). rewrite Hv, Hf, Hp. auto.
  - destruct (Parse_vmess c1 n Hp) as (Hv & Hf & _).
    destruct (protocol_classes (nProtocol n)) as (_ & Hc & _).
    destruct (Hc Hp) as [Hx _]. rewrite Hv, Hf, Hx. auto.
  - destruct (Parse_shadowsocks c1 n Hp) as (Hv & Hf & _).
    destruct (protocol_classes (nProtocol n)) as (_ & _ & Hc).
    destruct (Hc Hp) as [Hx _]. rewrite Hv, Hf, Hx. auto.
  - rewrite (Parse_other c1 n Hp). unfold recognized in Hp.
    apply orb_false_elim in Hp. destruct Hp as [Hp _].
    apply orb_false_elim in Hp. destruct Hp as [Hx _].
    rewrite Hx. auto.
Qed.

Lemma Parse_with_protocol (c : APIClient) (n : NodeInfoResponse)
  (p q : string) :
  String.eqb p "vless" || String.eqb p "Vless" =
  String.eqb q "vless" || String.eqb q "Vless" ->
  String.eqb p "vmess" || String.eqb p "Vmess" =
  String.eqb q "vmess" || String.eqb q "Vmess" ->
  String.eqb p "Shadowsocks" || String.eqb p "shadowsocks" =
  String.eqb q "Shadowsocks" || String.eqb q "shadowsocks" ->
  ParseAirGoNodeInfo c (with_protocol p n) =
  ParseAirGoNodeInfo c (with_protocol q n).
Proof.
  intros Hv Hm Hs. unfold ParseAirGoNodeInfo, with_protocol, camouflage.
  cbn [nSecurity nNetwork nType nProtocol nPort nPath nHost
    nVlessFlow nServiceName nDest nSni nPrivateKey nScy nServerKey
    nNodeSpeedLimit].
  rewrite Hv, Hm, Hs. reflexivity.
Qed.

(** X9: the two spellings of a protocol are interchangeable: a descriptor
    gives the same configuration under "vless" as under "Vless", under
    "vmess" as under "Vmess", and under "shadowsocks" as under
    "Shadowsocks". *)
Theorem spellings_agree (c : APIClient) (n : NodeInfoResponse) :
  ParseAirGoNodeInfo c (with_protocol "Vless" n) =
  ParseAirGoNodeInfo c (with_protocol "vless" n) /\
  ParseAirGoNodeInfo c (with_protocol "Vmess" n) =
  ParseAirGoNodeInfo c (with_protocol "vmess" n) /\
  ParseAirGoNodeInfo c (with_protocol "Shadowsocks" n) =
  ParseAirGoNodeInfo c (with_protocol "shadowsocks" n).
Proof.
  repeat split; apply Parse_with_protocol; reflexivity.
Qed.

(** X10: the REALITY configuration pointer is non-nil exactly for vless
    (the zero configuration unless the security mode is "reality"), and a
    configuration with REALITY enabled and a nil REALITY configuration
    comes out exactly for vmess with security mode "reality". *)
Theorem REALITYConfig_presence (c : APIClient) (n : NodeInfoResponse) :
  let o := fst (ParseAirGoNodeInfo c n) in
  (is_Some (REALITYConfig_ o) <-> is_vless (nProtocol n) = true) /\
  (is_vless (nProtocol n) = true -> nSecurity n <> "reality" ->
   REALITYConfig_ o = Some zero_REALITYConfig) /\
  (EnableREALITY o = true /\ REALITYConfig_ o = None <->
   is_vmess (nProtocol n) = true /\ nSecurity n = "reality").
Proof.
  cbv zeta.
  destruct (protocol_classes (nProtocol n)) as (Hcv & Hcm & Hcs).
  destruct (class_cases (nProtocol n)) as [Hp | [Hp | [Hp | Hp]]].
  - destruct (Parse_vless c n Hp)
      as (_ & _ & _ & _ & _ & _ & _ & _ & _ & _ & Hr & Hc & _).
    destruct (Hcv Hp) as [Hm _]. rewrite Hc, Hr, Hp, Hm.
    split; [ split; [ reflexivity | intros _; eexists; reflexivity ] | ].
    split.
    + intros _ Hne. apply String.eqb_neq in Hne. rewrite Hne. reflexivity.
    + split; intros [Ha Hb]; discriminate.
  - destruct (Parse_vmess c n Hp)
      as (_ & _ & _ & _ & _ & _ & _ & _ & _ & _ & Hr & Hc & _).
    destruct (Hcm Hp) as [Hv _]. rewrite Hc, Hr, Hp, Hv.
    split; [ split; [ intros [x Hx]; discriminate Hx | discriminate ] | ].
    split; [ discriminate | ].
    rewrite String.eqb_eq. tauto.
  - destruct (Parse_shadowsocks c n Hp)
      as (_ & _ & _ & _ & _ & _ & _ & _ & _ & _ & Hr & Hc & _).
    destruct (Hcs Hp) as [Hv Hm]. rewrite Hc, Hr, Hv, Hm.
    split; [ split; [ intros [x Hx]; discriminate Hx | discriminate ] | ].
    split; [ discriminate | ].
    split; intros [Ha Hb]; discriminate.
  - rewrite (Parse_other c n Hp). cbn.
    unfold recognized in Hp.
    apply orb_false_elim in Hp. destruct Hp as [Hp _].
    apply orb_false_elim in Hp. destruct Hp as [Hv Hm].
    rewrite Hv, Hm.
    split; [ split; [ intros [x Hx]; discriminate Hx | discriminate ] | ].
    split; [ discriminate | ].
    split; intros [Ha Hb]; discriminate.
Qed.

(** X11: the output port is the descriptor's port reduced modulo 2^32 for
    a recognized protocol and 0 otherwise: always a uint32, and the
    descriptor's port itself when that is one. *)
Theorem Port_wraps (c : APIClient) (n : NodeInfoResponse) :
  let o := fst (ParseAirGoNodeInfo c n) in
  Port o = (if recognized (nProtocol n) then nPort n mod 2 ^ 32 else 0) /\
  0 <= Port o < 2 ^ 32 /\
  (recognized (nProtocol n) = true -> 0 <= nPort n < 2 ^ 32 ->
   Port o = nPort n).
Proof.
  cbv zeta.
  assert (Hport : Port (fst (ParseAirGoNodeInfo c n)) =
                  if recognized (nProtocol n) then nPort n mod 2 ^ 32 else 0).
  { destruct (class_cases (nProtocol n)) as [Hp | [Hp | [Hp | Hp]]].
    - destruct (Parse_vless c n Hp) as (_ & _ & _ & _ & Hq & _).
      unfold recognized. rewrite Hq, Hp. reflexivity.
    - destruct (Parse_vmess c n Hp) as (_ & _ & _ & _ & Hq & _).
      unfold recognized. rewrite Hq, Hp, orb_true_r. reflexivity.
    - destruct (Parse_shadowsocks c n Hp) as (_ & _ & _ & _ & Hq & _).
      unfold recognized. rewrite Hq, Hp, orb_true_r. reflexivity.
    - rewrite (Parse_other c n Hp), Hp. reflexivity. }
  rewrite Hport. split; [ reflexivity | ].
  destruct (recognized (nProtocol n)).
  - split; [ apply Z.mod_pos_bound; lia | ].
    intros _ Hr. apply Z.mod_small. exact Hr.
  - split; [ lia | discriminate ].
Qed.

(** X16: the user translation reads only the default speed limit of the
    client: the client's device limit is no fallback, and a user whose
    connection limit is 0 comes out with device limit 0 whatever the
    client's; clients with the same default speed limit translate a list
    alike. *)
Theorem translate_users_client_fields (c1 c2 : APIClient)
  (l : list UserResponse) :
  cSpeedLimit c1 = cSpeedLimit c2 ->
  translate_users c1 l = translate_users c2 l /\
  (forall (i : nat) (v : UserResponse) (u : UserInfo),
     l !! i = Some v -> translate_users c1 l !! i = Some u ->
     uNodeConnector v = 0 -> DeviceLimit u = 0).
Proof.
  intros Hs. rewrite !translate_users_fmap. split.
  - unfold userInfo_of. rewrite Hs. reflexivity.
  - intros i v u Hv Hu Hz.
    rewrite list_lookup_fmap, Hv in Hu. cbn in Hu.
    injection Hu as <-. cbn [DeviceLimit userInfo_of]. rewrite Hz. reflexivity.
Qed.

End MappingProperties.

(** ** Further properties of the reports and of the rule loader *)

Section ReportProperties.

Context `{Externals}.

Lemma postRequest_outcome {B : Type} (c : APIClient)
  (post : string -> B -> Response) (path : string) (body : B) :
  let res := post path body in
  (postRequest c post path body = None <->
   TransportErr res = None /\ StatusCode res = 200) /\
  (forall e, TransportErr res = Some e ->
     postRequest c post path body =
     Some (SendRequestFailed (cAPIHost c +:+ path) e)) /\
  (TransportErr res = None -> StatusCode res <> 200 ->
     postRequest c post path body =
     Some (RequestStatusFailed (cAPIHost c +:+ path) (StatusCode res))).
Proof.
  cbv zeta. unfold postRequest, assembleURL.
  destruct (TransportErr (post path body)) as [te | ].
  - split; [ split; [ discriminate | intros [Ha _]; discriminate Ha ] | ].
    split; [ intros e [= <-]; reflexivity | discriminate ].
  - destruct (Z.eqb_spec (StatusCode (post path body)) 200) as [Hst | Hst];
      cbn [negb].
    + split; [ split; [ auto | reflexivity ] | ].
      split; [ discriminate | contradiction ].
    + split; [ split; [ discriminate | intros [_ Hb]; contradiction ] | ].
      split; [ discriminate | reflexivity ].
Qed.

(** X12: each of the three reports posts one body that carries the node
    id of the client and the caller's data, and succeeds exactly when the
    answer has no transport error and status 200: any other status, 201
    and 204 included, is a failure, and the error names the host joined
    with the path. *)
Theorem reports_succeed_on_200 (c : APIClient) :
  (forall post nodeStatus,
     let path := "/api/public/airgo/node/reportNodeStatus" in
     let body := {| rsID := cNodeID c; rsCPU := sCPU nodeStatus;
                    rsMem := sMem nodeStatus; rsDisk := sDisk nodeStatus;
                    rsUptime := sUptime nodeStatus |} in
     let res := post path body in
     (ReportNodeStatus c post nodeStatus = None <->
      TransportErr res = None /\ StatusCode res = 200) /\
     (TransportErr res = None -> StatusCode res <> 200 ->
      ReportNodeStatus c post nodeStatus =
      Some (RequestStatusFailed (cAPIHost c +:+ path) (StatusCode res)))) /\
  (forall post userTraffic,
     let path := "/api/public/airgo/user/reportUserTraffic" in
     let body := {| rtID := cNodeID c; rtUserTraffic := userTraffic |} in
     let res := post path body in
     (ReportUserTraffic c post userTraffic = None <->
      TransportErr res = None /\ StatusCode res = 200) /\
     (TransportErr res = None -> StatusCode res <> 200 ->
      ReportUserTraffic c post userTraffic =
      Some (RequestStatusFailed (cAPIHost c +:+ path) (StatusCode res)))) /\
  (forall post onlineUserList,
     let path := "/api/public/airgo/user/AGReportNodeOnlineUsers" in
     let body := online_payload c onlineUserList in
     let res := post path body in
     (ReportNodeOnlineUsers c post onlineUserList = None <->
      TransportErr res = None /\ StatusCode res = 200) /\
     (TransportErr res = None -> StatusCode res <> 200 ->
      ReportNodeOnlineUsers c post onlineUserList =
      Some (RequestStatusFailed (cAPIHost c +:+ path) (StatusCode res)))).
Proof.
  split; [ | split ].
  - intros post nodeStatus. cbv zeta. unfold ReportNodeStatus.
    match goal with |- context [postRequest c post ?p ?b] =>
      destruct (postRequest_outcome c post p b) as (Hok & _ & Hst) end.
    split; assumption.
  - intros post userTraffic. cbv zeta. unfold ReportUserTraffic.
    match goal with |- context [postRequest c post ?p ?b] =>
      destruct (postRequest_outcome c post p b) as (Hok & _ & Hst) end.
    split; assumption.
  - intros post onlineUserList. cbv zeta. unfold ReportNodeOnlineUsers.
    match goal with |- context [postRequest c post ?p ?b] =>
      destruct (postRequest_outcome c post p b) as (Hok & _ & Hst) end.
    split; assumption.
Qed.

Lemma total_ips_comm (z1 z2 : list string) (y : nat) :
  (length z1 + (length z2 + y) = length z2 + (length z1 + y))%nat.
Proof. lia. Qed.

Lemma total_ips_add_online (m : gmap Z (list string)) (v : OnlineUser) :
  total_ips (add_online m v) = S (total_ips m).
Proof.
  unfold total_ips, add_online.
  destruct (m !! oUID v) as [ips | ] eqn:Hl; cbn [default].
  - rewrite <- insert_delete_eq.
    rewrite map_fold_insert_L;
      [ | intros; apply total_ips_comm | apply lookup_delete_eq ].
    rewrite (map_fold_delete_L _ _ (oUID v) ips m);
      [ | intros; apply total_ips_comm | exact Hl ].
    rewrite length_app. cbn. lia.
  - rewrite map_fold_insert_L;
      [ | intros; apply total_ips_comm | exact Hl ].
    cbn. reflexivity.
Qed.

Lemma total_ips_foldl (l : list OnlineUser) :
  forall m, total_ips (foldl add_online m l) = (total_ips m + length l)%nat.
Proof.
  induction l as [ | v l IH]; intros m; cbn [foldl length].
  - lia.
  - rewrite IH, total_ips_add_online. lia.
Qed.

(** X13: grouping loses and invents nothing: the table posted by
    [ReportNodeOnlineUsers] holds as many IPs, over all users, as there
    are observations, and it is empty exactly for an empty list. *)
Theorem online_users_count (c : APIClient) (l : list OnlineUser) :
  total_ips (rUserNodeMap (online_payload c l)) = length l /\
  (rUserNodeMap (online_payload c l) = ∅ <-> l = []).
Proof.
  unfold online_payload. cbn [rUserNodeMap]. split.
  - rewrite total_ips_foldl. unfold total_ips. rewrite map_fold_empty.
    reflexivity.
  - split.
    + intros Hm. destruct l as [ | v l]; [ reflexivity | exfalso ].
      assert (Hl : foldl add_online ∅ (v :: l) !! oUID v = None)
        by (rewrite Hm; apply lookup_empty).
      rewrite foldl_add_online, filter_cons in Hl.
      destruct (decide (oUID v = oUID v)) as [_ | Hne];
        [ | contradiction ].
      cbn in Hl. discriminate Hl.
    + intros ->. reflexivity.
Qed.

(** X14: grouping a list of observations followed by another gives the
    first table merged with the second, the IPs of a user present in both
    being those of the first followed by those of the second. *)
Theorem online_users_app (c : APIClient) (l1 l2 : list OnlineUser) :
  rUserNodeMap (online_payload c (l1 ++ l2)) =
  merge_online (rUserNodeMap (online_payload c l1))
               (rUserNodeMap (online_payload c l2)).
Proof.
  unfold online_payload, merge_online. cbn [rUserNodeMap].
  apply map_eq. intros uid.
  rewrite lookup_union_with, !foldl_add_online, !lookup_empty.
  rewrite filter_app, fmap_app. cbn [default].
  destruct (oIP <$> filter (fun v => oUID v = uid) l1) as [ | a la];
    destruct (oIP <$> filter (fun v => oUID v = uid) l2) as [ | b lb];
    cbn; try reflexivity.
  rewrite app_nil_r. reflexivity.
Qed.

End ReportProperties.

Section RuleProperties.

Context `{System}.

Lemma scan_rules_compiles (lines : list string) :
  forall acc : list DetectRule,
    forallb regexp_compiles lines = true ->
    scan_rules lines acc =
    Returned (acc ++ ((fun text => {| dID := -1; dPattern := Compiled text |})
                        <$> lines)).
Proof.
  induction lines as [ | text rest IH]; intros acc Hall; cbn [scan_rules].
  - cbn. rewrite app_nil_r. reflexivity.
  - cbn [forallb] in Hall. apply andb_prop in Hall. destruct Hall as [Ht Hr].
    unfold MustCompile. rewrite Ht. rewrite IH by exact Hr.
    rewrite <- app_assoc. reflexivity.
Qed.

Lemma scan_rules_panics (lines : list string) :
  forall acc : list DetectRule,
    forallb regexp_compiles lines = false ->
    exists msg, scan_rules lines acc = Panicked msg.
Proof.
  induction lines as [ | text rest IH]; intros acc Hall; cbn [scan_rules].
  - discriminate Hall.
  - cbn [forallb] in Hall. unfold MustCompile.
    destruct (regexp_compiles text); cbn in Hall.
    + apply IH. exact Hall.
    + eexists. reflexivity.
Qed.

(** X15: [readLocalRuleList] returns the empty list for an empty path,
    without opening anything, and for a file that cannot be opened; for an
    opened file it returns one rule per scanned line, in order, each with
    id -1 and the line as its pattern, when every line compiles and the
    scan ended without error; a line that does not compile panics, read
    error or not, and a read error after lines that all compile exits. *)
Theorem readLocalRuleList_outcome (path : string) :
  (path = "" -> readLocalRuleList path = Returned []) /\
  (path <> "" ->
   (forall e, os_Open path = inl e -> readLocalRuleList path = Returned []) /\
   (forall file, os_Open path = inr file ->
      (forallb regexp_compiles (fLines file) = true -> fErr file = None ->
       readLocalRuleList path =
       Returned ((fun text => {| dID := -1; dPattern := Compiled text |})
                   <$> fLines file)) /\
      (forallb regexp_compiles (fLines file) = false ->
       exists msg, readLocalRuleList path = Panicked msg) /\
      (forallb regexp_compiles (fLines file) = true ->
       forall e, fErr file = Some e ->
         exists msg, readLocalRuleList path = Exited msg))).
Proof.
  unfold readLocalRuleList. split.
  - intros ->. reflexivity.
  - intros Hne. apply String.eqb_neq in Hne. rewrite Hne. split.
    + intros e ->. reflexivity.
    + intros file ->. split; [ | split ].
      * intros Hall Herr. rewrite scan_rules_compiles by exact Hall.
        rewrite Herr. reflexivity.
      * intros Hall. destruct (scan_rules_panics _ [] Hall) as [msg ->].
        eexists. reflexivity.
      * intros Hall e Herr. rewrite scan_rules_compiles by exact Hall.
        rewrite Herr. eexists. reflexivity.
Qed.

End RuleProperties.

(** ** Concrete inputs *)

(** C1, as stated, fails: a vless descriptor with security mode "reality"
    comes out with TLS and REALITY both on. *)
Lemma reality_keeps_tls_on :
  let o := fst (@ParseAirGoNodeInfo plain_externals client0
                  (descriptor "vless" "tcp" "reality" "none")) in
  EnableTLS o = true /\ EnableREALITY o = true.
Proof. vm_compute. split; reflexivity. Qed.

(** C2, as stated, fails: a shadowsocks descriptor with security mode
    "reality" comes out with REALITY off and no REALITY configuration. *)
Lemma shadowsocks_reality_off :
  let n := descriptor "shadowsocks" "tcp" "reality" "none" in
  let o := fst (@ParseAirGoNodeInfo plain_externals client0 n) in
  nSecurity n = "reality" /\ recognized (nProtocol n) = true /\
  EnableREALITY o = false /\ REALITYConfig_ o = None.
Proof. vm_compute. repeat split; reflexivity. Qed.

(** A vmess descriptor with security mode "reality" has REALITY on and a
    nil REALITY configuration. *)
Example vmess_reality_without_config :
  let o := fst (@ParseAirGoNodeInfo plain_externals client0
                  (descriptor "vmess" "tcp" "reality" "none")) in
  EnableREALITY o = true /\ REALITYConfig_ o = None.
Proof. vm_compute. split; reflexivity. Qed.

(** C3, as stated, fails: the capitalization "VLESS" is not one of the
    spellings and gives the zero-value configuration, with a nil error. *)
Lemma VLESS_is_not_dispatched :
  @ParseAirGoNodeInfo plain_externals client0
    (descriptor "VLESS" "tcp" "tls" "none") = (zero_NodeInfo, None).
Proof. vm_compute. reflexivity. Qed.

(** A vmess descriptor whose copied fields are all zero, on a client whose
    node type, node id and default speed limit are zero, gives the zero
    value too. *)
Example vmess_can_be_zero :
  fst (@ParseAirGoNodeInfo plain_externals
         {| cAPIHost := ""; cNodeID := 0; cKey := ""; cNodeType := "";
            cEnableVless := false; cVlessFlow := "";
            cSpeedLimit := S754_zero false; cDeviceLimit := 0; eTags := ∅ |}
         {| nProtocol := "vmess"; nNetwork := ""; nSecurity := "";
            nPort := 0; nNodeSpeedLimit := S754_zero false; nVlessFlow := "";
            nPath := ""; nHost := ""; nServiceName := ""; nType := "";
            nScy := ""; nServerKey := ""; nDest := ""; nSni := "";
            nPrivateKey := "" |}) = zero_NodeInfo.
Proof. vm_compute. reflexivity. Qed.

Lemma security_mode_outputs_witness :
  let n := descriptor "Vless" "ws" "reality" "none" in
  let o := fst (@ParseAirGoNodeInfo plain_externals client0 n) in
  nSecurity n = "reality" /\ nProtocol n = "Vless" /\
  EnableREALITY o = true /\
  exists r, REALITYConfig_ o = Some r /\
    Dest r = "d.example:443" /\ ServerNames r = ["sni.example"] /\
    PrivateKey r = "pk" /\ ShortIds r = [""; "0123456789abcdef"] /\
    ProxyProtocolVer r = 0 /\ MaxTimeDiff r = 0 /\
    MinClientVer r = "" /\ MaxClientVer r = "".
Proof.
  cbv zeta. split; [ reflexivity | ]. split; [ reflexivity | ].
  apply (@security_mode_outputs plain_externals client0
           (descriptor "Vless" "ws" "reality" "none"));
    [ reflexivity | right; reflexivity ].
Defined.

Lemma protocol_dispatch_witness :
  let n := descriptor "Shadowsocks" "grpc" "tls" "none" in
  let o := fst (@ParseAirGoNodeInfo plain_externals client0 n) in
  nProtocol n = "Shadowsocks" /\
  TransportProtocol o = "tcp" /\ CypherMethod o = "auto" /\
  ServerKey o = "sk" /\ NodeType o = "V2ray" /\ NodeID o = 7 /\
  o <> zero_NodeInfo.
Proof.
  cbv zeta. split; [ reflexivity | ].
  apply (@protocol_dispatch plain_externals client0
           (descriptor "Shadowsocks" "grpc" "tls" "none")).
  left; reflexivity.
Defined.

Lemma camouflage_header_witness :
  let n := descriptor "vmess" "tcp" "tls" "http" in
  let o := fst (@ParseAirGoNodeInfo plain_externals client0 n) in
  (TransportProtocol o = "tcp" /\ nType n = "http") /\
  Header o = Some (@camouflage_json plain_externals n).
Proof.
  cbv zeta. split; [ split; reflexivity | ].
  destruct (@camouflage_header plain_externals client0
              (descriptor "vmess" "tcp" "tls" "http"))
    as (Hiff & _ & _ & Hset).
  apply Hset. apply Hiff. split; reflexivity.
Defined.

Lemma shadowsocks_shape_witness :
  let n := descriptor "shadowsocks" "grpc" "reality" "none" in
  let o := fst (@ParseAirGoNodeInfo plain_externals client0 n) in
  (nProtocol n = "shadowsocks" \/ nProtocol n = "Shadowsocks") /\
  TransportProtocol o = "tcp" /\
  CypherMethod o = "auto" /\ ServerKey o = "sk" /\
  EnableTLS o = false /\ EnableREALITY o = false /\
  REALITYConfig_ o = None.
Proof.
  cbv zeta. split; [ left; reflexivity | ].
  apply (@shadowsocks_shape plain_externals client0
           (descriptor "shadowsocks" "grpc" "reality" "none")).
  left; reflexivity.
Defined.

Lemma eTags_only_fresh_tokens_witness :
  StatusCode (not_modified
    {| qPath := "/api/public/airgo/node/getNodeInfo"; qID := cNodeID client0;
       qIfNoneMatch := @eTag client0 "node" |}) = 304 /\
  @GetNodeInfo plain_externals client0 not_modified =
  ((None, Some NodeNotModified), client0).
Proof.
  split; [ reflexivity | ].
  apply (@eTags_only_fresh_tokens plain_externals client0). reflexivity.
Defined.

Lemma user_list_translation_witness :
  (two_users !! 0%nat =
     Some {| uID := 11; uUUID := "u-11"; uUserName := "ann"; uPasswd := "pa";
             uNodeSpeedLimit := 100; uNodeConnector := 3 |} /\
   GoInt.is_int64 11 /\ GoInt.is_int64 3 /\
   0 < 100 /\ 100 * 1000000 < 2 ^ 53) /\
  (two_users !! 1%nat =
     Some {| uID := 12; uUUID := "u-12"; uUserName := "bob"; uPasswd := "pb";
             uNodeSpeedLimit := 0; uNodeConnector := 0 |} /\
   GoInt.is_int64 12 /\ GoInt.is_int64 0 /\
   0 <= 0 /\ cSpeedLimit client0 = Float64.of_Z 50 /\
   0 < 50 /\ 50 * 1000000 < 2 ^ 53) /\
  (exists u, @translate_users plain_externals client0 two_users !! 0%nat = Some u /\
     UID u = 11 /\ UUID u = "u-11" /\ Email u = "ann" /\ Passwd u = "pa" /\
     DeviceLimit u = 3 /\ uSpeedLimit u = 12500000) /\
  (exists u, @translate_users plain_externals client0 two_users !! 1%nat = Some u /\
     UID u = 12 /\ UUID u = "u-12" /\ Email u = "bob" /\ Passwd u = "pb" /\
     DeviceLimit u = 0 /\ uSpeedLimit u = 6250000).
Proof.
  assert (H64 : forall z, - 2 ^ 63 <= z < 2 ^ 63 -> GoInt.is_int64 z)
    by (intros z Hz; exact Hz).
  destruct (@user_list_translation plain_externals client0 two_users)
    as (_ & _ & Hnth & _).
  split; [ repeat split; try reflexivity; try discriminate | ].
  split; [ repeat split; try reflexivity; try discriminate | ].
  split.
  - destruct (Hnth 0%nat
                {| uID := 11; uUUID := "u-11"; uUserName := "ann";
                   uPasswd := "pa"; uNodeSpeedLimit := 100;
                   uNodeConnector := 3 |} eq_refl)
      as (u & Hu & Hid & Huu & Hem & Hpw & Hdl & _ & _ & Hexact & _);
      [ apply H64; cbn; lia | apply H64; cbn; lia | ].
    exists u. repeat split; try assumption.
    rewrite Hexact; [ reflexivity | cbn; lia | reflexivity ].
  - destruct (Hnth 1%nat
                {| uID := 12; uUUID := "u-12"; uUserName := "bob";
                   uPasswd := "pb"; uNodeSpeedLimit := 0;
                   uNodeConnector := 0 |} eq_refl)
      as (u & Hu & Hid & Huu & Hem & Hpw & Hdl & _ & _ & _ & Hdefault & _);
      [ apply H64; cbn; lia | apply H64; cbn; lia | ].
    exists u. repeat split; try assumption.
    rewrite (Hdefault 50); [ reflexivity | cbn; lia | reflexivity | lia
                           | reflexivity ].
Defined.

Lemma speed_limit_resolution_witness :
  (0 < 100 /\ 100 * 1000000 < 2 ^ 53) /\
  @calculateSpeedLimit plain_externals 100 (S754_zero false) =
  Z.quot (100 * 1000000) 8.
Proof.
  split; [ split; [ lia | reflexivity ] | ].
  destruct (@speed_limit_resolution plain_externals client0)
    as (_ & _ & _ & Hexact & _).
  apply Hexact; [ lia | reflexivity ].
Defined.

Lemma updateETag_last_wins_witness :
  Etag (with_token "t2" (node_request client0)) <> "" /\
  eTag (updateETag
          (updateETag client0 (with_token "t1" (node_request client0)) "node")
          (with_token "t2" (node_request client0)) "node") "node" = "t2".
Proof.
  split; [ discriminate | ].
  apply (updateETag_last_wins client0
           (with_token "t1" (node_request client0))
           (with_token "t2" (node_request client0)) "node").
  discriminate.
Defined.

Lemma polling_invariant_witness :
  @New plain_system config0 = Returned (client0, []) /\
  table_ok (@after_fetches plain_externals client0
              [FetchNode (steady_panel "v1" "{}"); FetchUsers not_modified;
               FetchUsers (with_token "u1")]).
Proof.
  split; [ reflexivity | ].
  apply (@polling_invariant plain_externals plain_system config0 client0 []).
  reflexivity.
Defined.

Lemma steady_panel_second_fetch_witness :
  "v1" <> "" /\
  let c1 := snd (@GetNodeInfo plain_externals client0 (steady_panel "v1" "{}")) in
  eTag c1 "node" = "v1" /\
  @GetNodeInfo plain_externals c1 (steady_panel "v1" "{}") =
  ((None, Some NodeNotModified), c1).
Proof.
  split; [ discriminate | ].
  apply (@steady_panel_second_fetch plain_externals client0 "v1" "{}").
  discriminate.
Defined.

Lemma GetNodeInfo_outcome_witness :
  StatusCode (not_modified (node_request client0)) = 304 /\
  fst (@GetNodeInfo plain_externals client0 not_modified) =
  (None, Some NodeNotModified).
Proof.
  split; [ reflexivity | ].
  apply (@GetNodeInfo_outcome plain_externals client0 not_modified).
  reflexivity.
Defined.

Lemma GetUserList_outcome_witness :
  TransportErr (unreachable (userlist_request client1)) = Some "timeout" /\
  @GetUserList plain_externals client1 unreachable =
  ((None, Some (GetUserListFailed "timeout")), client1).
Proof.
  split; [ reflexivity | ].
  apply (@GetUserList_outcome plain_externals client1 unreachable).
  reflexivity.
Defined.

Lemma ParseAirGoNodeInfo_client_fields_witness :
  (cNodeType client0 = cNodeType client1 /\ cNodeID client0 = cNodeID client1 /\
   cSpeedLimit client0 = cSpeedLimit client1) /\
  let n := descriptor "vmess" "tcp" "tls" "http" in
  @ParseAirGoNodeInfo plain_externals client0 n =
  @ParseAirGoNodeInfo plain_externals client1 n.
Proof.
  split; [ repeat split | ].
  apply (@ParseAirGoNodeInfo_client_fields plain_externals client0 client1
           (descriptor "vmess" "tcp" "tls" "http")); reflexivity.
Defined.

Lemma REALITYConfig_presence_witness :
  let n := descriptor "vless" "ws" "tls" "none" in
  (is_vless (nProtocol n) = true /\ nSecurity n <> "reality") /\
  REALITYConfig_ (fst (@ParseAirGoNodeInfo plain_externals client0 n)) =
  Some zero_REALITYConfig.
Proof.
  cbv zeta. split; [ split; [ reflexivity | discriminate ] | ].
  destruct (@REALITYConfig_presence plain_externals client0
              (descriptor "vless" "ws" "tls" "none")) as (_ & Hzero & _).
  apply Hzero; [ reflexivity | discriminate ].
Defined.

Lemma Port_wraps_witness :
  let n := descriptor "Vmess" "grpc" "none" "none" in
  (recognized (nProtocol n) = true /\ 0 <= nPort n < 2 ^ 32) /\
  Port (fst (@ParseAirGoNodeInfo plain_externals client0 n)) = 443.
Proof.
  cbv zeta. split; [ split; [ reflexivity | cbn; lia ] | ].
  destruct (@Port_wraps plain_externals client0
              (descriptor "Vmess" "grpc" "none" "none")) as (_ & _ & Hsame).
  apply Hsame; [ reflexivity | cbn; lia ].
Defined.

Lemma reports_succeed_on_200_witness :
  let path := "/api/public/airgo/user/reportUserTraffic" in
  let body := {| rtID := 7; rtUserTraffic := [] |} in
  (TransportErr (no_content path body) = None /\
   StatusCode (no_content path body) <> 200) /\
  ReportUserTraffic client0 no_content [] =
  Some (RequestStatusFailed ("http://panel" +:+ path) 204).
Proof.
  cbv zeta. split; [ split; [ reflexivity | discriminate ] | ].
  destruct (reports_succeed_on_200 client0) as (_ & Htraffic & _).
  apply (Htraffic no_content []); [ reflexivity | discriminate ].
Defined.

Lemma readLocalRuleList_outcome_witness :
  "rules.txt" <> "" /\
  @readLocalRuleList plain_system "rules.txt" =
  Returned [ {| dID := -1; dPattern := Compiled "a.*b" |};
             {| dID := -1; dPattern := Compiled "^c$" |} ].
Proof.
  split; [ discriminate | ].
  destruct (@readLocalRuleList_outcome plain_system "rules.txt")
    as (_ & Hfile).
  destruct (Hfile ltac:(discriminate)) as (_ & Hopen).
  destruct (Hopen {| fLines := ["a.*b"; "^c$"]; fErr := None |} eq_refl)
    as (Hok & _).
  apply Hok; reflexivity.
Defined.

Lemma translate_users_client_fields_witness :
  cSpeedLimit client0 = cSpeedLimit client1 /\
  @translate_users plain_externals client0 two_users =
  @translate_users plain_externals client1 two_users.
Proof.
  split; [ reflexivity | ].
  apply (@translate_users_client_fields plain_externals client0 client1
           two_users).
  reflexivity.
Defined.
